(** * raw2mpc: a shallow embedding of the raw-file to MATPOWER-case converter

    The development follows [src/raw2mpc.py] function by function.  Python
    values are modelled as follows.

    - [str] is [string]; a file is the list of its lines, each line as the
      file iterator yields it (terminator included when there is one).
    - Python integers are [Z]; numpy [float64] cells are [spec_float] at
      precision 53 and maximal exponent 1024, with the Standard Library's
      specification of the IEEE 754 operations.
    - A numpy 2-D array is the list of its rows, a row the list of its cells.
    - The bus map is a [gmap string nat].
    - Exceptions, the [csv] reader and the [logging] calls are threaded
      through a state-and-exception monad. *)

From Stdlib Require Import ZArith String Ascii List Lia Bool.
From Stdlib Require Import Floats.SpecFloat.
From stdpp Require Import base option list gmap strings.

Local Open Scope Z_scope.
Local Open Scope string_scope.
Local Open Scope list_scope.

(* ================================================================== *)
(** * Python strings *)

Module PyStr.

(** [s.split("/")[0]]: the text before the first occurrence of [sep]. *)
Fixpoint split_head (sep : ascii) (s : string) : string :=
  match s with
  | EmptyString => EmptyString
  | String c r => if Ascii.eqb c sep then EmptyString
                  else String c (split_head sep r)
  end.

(** [c in s] for a one-character [c]. *)
Fixpoint contains (c : ascii) (s : string) : bool :=
  match s with
  | EmptyString => false
  | String d r => Ascii.eqb c d || contains c r
  end.

(** [str.isspace] of a byte in the C locale. *)
Definition is_space (c : ascii) : bool :=
  let n := nat_of_ascii c in
  Nat.eqb n 32 || (Nat.leb 9 n && Nat.leb n 13).

Fixpoint lstrip (p : ascii -> bool) (s : string) : string :=
  match s with
  | EmptyString => EmptyString
  | String c r => if p c then lstrip p r else s
  end.

Definition reverse (s : string) : string :=
  string_of_list_ascii (rev (list_ascii_of_string s)).

Definition rstrip (p : ascii -> bool) (s : string) : string :=
  reverse (lstrip p (reverse s)).

(** [s.strip()] *)
Definition strip (s : string) : string := rstrip is_space (lstrip is_space s).

(** [s.strip(chars)] *)
Definition strip_chars (chars : string) (s : string) : string :=
  rstrip (fun c => contains c chars) (lstrip (fun c => contains c chars) s).

(** [bool(s)]: only the empty text is false. *)
Definition truthy (s : string) : bool :=
  match s with EmptyString => false | _ => true end.

Definition lower_ascii (c : ascii) : ascii :=
  let n := nat_of_ascii c in
  if Nat.leb 65 n && Nat.leb n 90 then ascii_of_nat (n + 32) else c.

Fixpoint lower (s : string) : string :=
  match s with
  | EmptyString => EmptyString
  | String c r => String (lower_ascii c) (lower r)
  end.

(** [os.path.basename] on a POSIX path: the text after the last [/]. *)
Fixpoint basename_aux (acc : string) (s : string) : string :=
  match s with
  | EmptyString => acc
  | String c r => if Ascii.eqb c "/" then basename_aux EmptyString r
                  else basename_aux (String.append acc (String c EmptyString)) r
  end.
Definition basename (s : string) : string := basename_aux EmptyString s.

End PyStr.

(* ================================================================== *)
(** * Python numbers *)

Module PyNum.

Definition prec : Z := 53.
Definition emax : Z := 1024.

(** A [float64]. *)
Definition float : Type := spec_float.

Definition fadd : float -> float -> float := SFadd prec emax.
Definition feqb : float -> float -> bool := SFeqb.
(** [x != y] *)
Definition fneb (x y : float) : bool := negb (feqb x y).

(** The nearest [float64] to an integer (ties to even). *)
Definition of_Z (z : Z) : float := binary_normalize prec emax z 0 false.

(** The nearest [float64] to [m * 10^e] with sign [s], for [m >= 0]. *)
Definition of_decimal (s : bool) (m : Z) (e : Z) : float :=
  match m with
  | Zpos p =>
      if (0 <=? e)%Z then binary_normalize prec emax (if s then - (m * 10 ^ e) else m * 10 ^ e) 0 s
      else match 10 ^ (- e) with
           | Zpos q => SFdiv prec emax (S754_finite s p 0) (S754_finite false q 0)
           | _ => S754_nan
           end
  | _ => S754_zero s
  end.

Definition zero : float := S754_zero false.
Definition one : float := of_Z 1.

(** Truth value of a float: [x != 0.0] (a NaN is true). *)
Definition ftruthy (x : float) : bool := fneb x zero.

Definition is_digit (c : ascii) : bool :=
  let n := nat_of_ascii c in Nat.leb 48 n && Nat.leb n 57.

Definition digit_val (c : ascii) : Z := Z.of_nat (nat_of_ascii c) - 48.

(** Reads a maximal run of decimal digits: its value so far, the number
    of digits read and the remaining text. *)
Fixpoint digits (acc : Z) (n : nat) (s : string) : Z * nat * string :=
  match s with
  | String c r => if is_digit c then digits (10 * acc + digit_val c) (S n) r
                  else (acc, n, s)
  | EmptyString => (acc, n, s)
  end.

(** An optional sign: [true] is minus. *)
Definition sign (s : string) : bool * string :=
  match s with
  | String "-" r => (true, r)
  | String "+" r => (false, r)
  | _ => (false, s)
  end.

(** [int(s)] on a [str], base ten: optional white space, an optional sign,
    one or more decimal digits, optional white space.  [None] stands for
    the [ValueError] that [int] raises. *)
Definition int (s : string) : option Z :=
  let s1 := PyStr.lstrip PyStr.is_space s in
  let '(neg, s2) := sign s1 in
  let s3 := PyStr.lstrip PyStr.is_space s2 in
  let '(v, n, s4) := digits 0 0 s3 in
  match n, PyStr.lstrip PyStr.is_space s4 with
  | S _, EmptyString => Some (if neg then - v else v)
  | _, _ => None
  end.

(** The exponent part of a float literal: [e] or [E], an optional sign and
    digits.  When the text after the mantissa is not a well-formed exponent
    the literal is malformed. *)
Definition exponent (s : string) : option Z :=
  match s with
  | EmptyString => Some 0
  | String c r =>
      if Ascii.eqb c "e" || Ascii.eqb c "E" then
        let '(neg, r1) := sign r in
        let '(v, n, r2) := digits 0 0 r1 in
        match n, r2 with
        | S _, EmptyString => Some (if neg then - v else v)
        | _, _ => None
        end
      else None
  end.

(** [float(s)] on a [str]: surrounding white space is dropped; then an
    optional sign followed by [inf], [infinity] or [nan] in any case, or by
    a decimal literal (digits with an optional point and an optional
    exponent, at least one digit in the mantissa).  The result is the
    correctly rounded [float64].  [None] stands for [ValueError]. *)
Definition float_of_string (s : string) : option float :=
  let '(neg, s1) := sign (PyStr.strip s) in
  let w := PyStr.lower s1 in
  if String.eqb w "inf" || String.eqb w "infinity" then Some (S754_infinity neg)
  else if String.eqb w "nan" then Some S754_nan
  else
    let '(ip, ni, s2) := digits 0 0 s1 in
    let '(m, nf, s3) :=
      match s2 with
      | String "." r => let '(m, nf, r') := digits ip 0 r in (m, nf, r')
      | _ => (ip, 0%nat, s2)
      end in
    match (ni + nf)%nat with
    | O => None
    | S _ =>
        match exponent s3 with
        | Some e => Some (of_decimal neg m (e - Z.of_nat nf))
        | None => None
        end
    end.

End PyNum.

(* ================================================================== *)
(** * Exceptions, state and logging *)

(** The exceptions the converter can let escape.  [CsvError] is
    [csv.Error]; an [IOError] is caught where it is raised and is part of
    the environment of [raw2mpc] below. *)
Inductive exn : Type :=
| StopIteration | AssertionError | IndexError | ValueError
| TypeError | OverflowError | CsvError.

(** A computation over a state [S] that returns an [A] or raises. *)
Definition M (S A : Type) : Type := S -> (exn + A) * S.

Definition ret {S A} (a : A) : M S A := fun s => (inr a, s).
Definition raise {S A} (e : exn) : M S A := fun s => (inl e, s).
Definition bind {S A B} (m : M S A) (k : A -> M S B) : M S B :=
  fun s => match m s with
           | (inr a, s') => k a s'
           | (inl e, s') => (inl e, s')
           end.

Notation "'let!' x ':=' m 'in' k" := (bind m (fun x => k))
  (at level 10, x name, m at level 200, k at level 200).
Notation "'let!' ' p ':=' m 'in' k" := (bind m (fun x => let 'p := x in k))
  (at level 10, p pattern, m at level 200, k at level 200).
Notation "'do!' m 'in' k" := (bind m (fun _ => k))
  (at level 10, m at level 200, k at level 200).

(** [o] when it is there, the exception [e] otherwise. *)
Definition try_some {S A} (e : exn) (o : option A) : M S A :=
  match o with Some a => ret a | None => raise e end.

(** [when b m]: [if b: m]. *)
Definition when {S} (b : bool) (m : M S unit) : M S unit :=
  if b then m else ret tt.

Module Log.

Inductive level : Type := INFO | WARNING | ERROR.

(** One constructor per logging call of the source, holding the values
    the call formats into its message. *)
Inductive message : Type :=
| LoadingPF (fname : string)
| LoadingOPF (fname : string)
| ErrorOpening (fname : string)
| ErrorSaving (matfile : string)
| BusRecords (c : Z)
| LoadRecords (c : Z)
| ConstantCurrentIgnored (Ip Iq : PyNum.float) (i : string) (idx : nat)
| ConstantAdmittanceIgnored (Yp Yq : PyNum.float) (i : string) (idx : nat)
| LoadNotScaled (i : string) (idx : nat) (scale : PyNum.float)
| GeneratorRecords (n : nat)
| BranchRecords (n : nat)
| ShuntRecords (c : Z)
| BusNotFound (i : string)
| FoundComma
| FoundWhitespace
| NoVersionInfo (version : Z)
| VersionFound (version : Z)
| VersionNotSupported (version : Z).

Definition record : Type := level * message.

(** The records logged so far, oldest first. *)
Definition t : Type := list record.

Definition info (m : message) : M t unit := fun l => (inr tt, l ++ [(INFO, m)]).
Definition warning (m : message) : M t unit := fun l => (inr tt, l ++ [(WARNING, m)]).
Definition error (m : message) : M t unit := fun l => (inr tt, l ++ [(ERROR, m)]).

End Log.

(* ================================================================== *)
(** * The csv reader *)

Module Csv.

(** A record of the file: the list of its fields. *)
Definition row : Type := list string.

Inductive state : Type :=
| START_RECORD | START_FIELD | IN_FIELD
| IN_QUOTED_FIELD | QUOTE_IN_QUOTED_FIELD | EAT_CRNL.

Definition state_eqb (a b : state) : bool :=
  match a, b with
  | START_RECORD, START_RECORD | START_FIELD, START_FIELD
  | IN_FIELD, IN_FIELD | IN_QUOTED_FIELD, IN_QUOTED_FIELD
  | QUOTE_IN_QUOTED_FIELD, QUOTE_IN_QUOTED_FIELD | EAT_CRNL, EAT_CRNL => true
  | _, _ => false
  end.

(** The parser of [csv.reader(fd, delimiter=sep, skipinitialspace=True)]:
    the excel dialect (the double quote as quote character, doubled quotes, no escape
    character, not strict) with the given delimiter. *)
Record parser : Type := mkParser {
  st : state;
  field : string;
  fields : row
}.

Definition reset : parser := mkParser START_RECORD "" [].

Definition quotechar : ascii := "034"%char.
Definition field_limit : N := 131072.

Definition is_newline (c : ascii) : bool :=
  Ascii.eqb c "010" || Ascii.eqb c "013".

Definition set_state (s : state) (p : parser) : parser :=
  mkParser s (field p) (fields p).

(** [None] is the error "field larger than field limit". *)
Definition add_char (c : ascii) (p : parser) : option parser :=
  if N.leb field_limit (N.of_nat (String.length (field p))) then None
  else Some (mkParser (st p) (String.append (field p) (String c "")) (fields p)).

Definition save_field (p : parser) : parser :=
  mkParser (st p) "" (fields p ++ [field p]).

Definition start_field (delimiter : ascii) (p : parser) (c : option ascii)
  : option parser :=
  match c with
  | None => Some (set_state START_RECORD (save_field p))
  | Some ch =>
      if is_newline ch then Some (set_state EAT_CRNL (save_field p))
      else if Ascii.eqb ch quotechar then Some (set_state IN_QUOTED_FIELD p)
      else if Ascii.eqb ch " " then Some p
      else if Ascii.eqb ch delimiter then Some (save_field p)
      else option_map (set_state IN_FIELD) (add_char ch p)
  end.

(** One step of the reader's automaton, as in CPython 2.7.  The character
    [c] is [None] for the end-of-line mark that the reader feeds after the
    last character of each line; the result [None] is [csv.Error]. *)
Definition process_char (delimiter : ascii) (p : parser) (c : option ascii)
  : option parser :=
  match st p with
  | START_RECORD =>
      match c with
      | None => Some p
      | Some ch => if is_newline ch then Some (set_state EAT_CRNL p)
                   else start_field delimiter (set_state START_FIELD p) c
      end
  | START_FIELD => start_field delimiter p c
  | IN_FIELD =>
      match c with
      | None => Some (set_state START_RECORD (save_field p))
      | Some ch =>
          if is_newline ch then Some (set_state EAT_CRNL (save_field p))
          else if Ascii.eqb ch delimiter
               then Some (set_state START_FIELD (save_field p))
          else add_char ch p
      end
  | IN_QUOTED_FIELD =>
      match c with
      | None => Some p
      | Some ch => if Ascii.eqb ch quotechar
                   then Some (set_state QUOTE_IN_QUOTED_FIELD p)
                   else add_char ch p
      end
  | QUOTE_IN_QUOTED_FIELD =>
      match c with
      | None => Some (set_state START_RECORD (save_field p))
      | Some ch =>
          if Ascii.eqb ch quotechar
          then option_map (set_state IN_QUOTED_FIELD) (add_char ch p)
          else if Ascii.eqb ch delimiter
               then Some (set_state START_FIELD (save_field p))
          else if is_newline ch then Some (set_state EAT_CRNL (save_field p))
          else option_map (set_state IN_FIELD) (add_char ch p)
      end
  | EAT_CRNL =>
      match c with
      | None => Some (set_state START_RECORD p)
      | Some ch => if is_newline ch then Some p else None
      end
  end.

(** Feeds the characters of one line, then the end-of-line mark.  A NUL
    byte in the line is an error. *)
Fixpoint process_line (delimiter : ascii) (p : parser) (line : string)
  : option parser :=
  match line with
  | EmptyString => process_char delimiter p None
  | String c r =>
      if Ascii.eqb c "000" then None
      else match process_char delimiter p (Some c) with
           | Some p' => process_line delimiter p' r
           | None => None
           end
  end.

(** The records [reader.next()] returns in turn over the lines [fd], and
    the exception it raises after the last of them: [StopIteration] at the
    end of the input, [CsvError] at a line the automaton rejects.  [p] is
    the parser state at the start of the next line; a record that a quoted
    field leaves open continues on the next line. *)
Fixpoint records (delimiter : ascii) (p : parser) (fd : list string)
  : list row * exn :=
  match fd with
  | [] =>
      if negb (Nat.eqb (String.length (field p)) 0) || state_eqb (st p) IN_QUOTED_FIELD
      then ([fields (save_field p)], StopIteration)
      else ([], StopIteration)
  | line :: rest =>
      match process_line delimiter p line with
      | None => ([], CsvError)
      | Some p' =>
          if state_eqb (st p') START_RECORD
          then let '(rs, e) := records delimiter reset rest in (fields p' :: rs, e)
          else records delimiter p' rest
      end
  end.

(** [csv.reader(fd, delimiter=sep, skipinitialspace=True)] over a file
    rewound to its start. *)
Definition reader (fd : list string) (delimiter : ascii) : list row * exn :=
  records delimiter reset fd.

End Csv.

(* ================================================================== *)
(** * numpy tables *)

Abbreviation float := PyNum.float.

(** A 2-D array: its rows in order, each the list of its cells. *)
Abbreviation table := (list (list float)).

(** [zeros((1, n))], as one row. *)
Definition zeros (n : nat) : list float := replicate n PyNum.zero.

(** [r_[t, row]] *)
Definition r_ (t : table) (r : list float) : table := t ++ [r].

(** [t[i, j]] when the cell exists. *)
Definition cell (t : table) (i j : nat) : option float :=
  match t !! i with Some r => r !! j | None => None end.

Definition set_cell (t : table) (i j : nat) (v : float) : table :=
  alter (fun r => <[j := v]> r) i t.

(** Reading [t[i, j]]: [IndexError] outside the array. *)
Definition get {S} (t : table) (i j : nat) : M S float :=
  try_some IndexError (cell t i j).

(** The assignment [t[i, j] = v]: [IndexError] outside the array. *)
Definition put {S} (t : table) (i j : nat) (v : float) : M S table :=
  match cell t i j with
  | Some _ => ret (set_cell t i j v)
  | None => raise IndexError
  end.

(** [row[k]] on a Python list *)
Definition item {S} (r : Csv.row) (k : nat) : M S string :=
  try_some IndexError (r !! k).

(** [float(s)] *)
Definition py_float {S} (s : string) : M S float :=
  try_some ValueError (PyNum.float_of_string s).

(** [int(s)] *)
Definition py_int {S} (s : string) : M S Z :=
  try_some ValueError (PyNum.int s).

(** Storing a Python integer in a [float64] cell: [OverflowError] when it
    is beyond the largest finite float. *)
Definition int_cell {S} (z : Z) : M S float :=
  match PyNum.of_Z z with
  | S754_finite s m e => ret (S754_finite s m e)
  | S754_zero s => ret (S754_zero s)
  | _ => raise OverflowError
  end.

(** [float(row[k])] *)
Definition float_item {S} (r : Csv.row) (k : nat) : M S float :=
  let! s := item r k in py_float s.

(* ================================================================== *)
(** * The section cursor *)

(** The state of a parse: the records the reader has not returned yet,
    the exception its [next()] raises after them, and the log. *)
Record PState : Type := mkPState {
  rd_rows : list Csv.row;
  rd_end : exn;
  log : Log.t
}.

(** Runs a computation that only logs. *)
Definition logged {A} (m : M Log.t A) : M PState A :=
  fun s => let '(r, l) := m (log s) in (r, mkPState (rd_rows s) (rd_end s) l).

(** [reader.next()] *)
Definition next : M PState Csv.row :=
  fun s => match rd_rows s with
           | [] => (inl (rd_end s), s)
           | r :: rest => (inr r, mkPState rest (rd_end s) (log s))
           end.

(** The loop test [row[0].split("/")[0].strip() != "0"]. *)
Definition is_data {S} (r : Csv.row) : M S bool :=
  let! f := item r 0 in
  ret (negb (String.eqb (PyStr.strip (PyStr.split_head "/" f)) "0")).

(** The loop every section parser is built on:
<<
    row = reader.next()
    while row[0].split("/")[0].strip() != "0":
        body
        row = reader.next()
>>
    [rs] are the records the reader still holds, [e] what it raises after
    them; the body sees the current row and the loop's variables [acc] and
    may log.  The read before the loop and the read that ends each turn are
    the one [match] at the head of the recursion. *)
Fixpoint section_loop {A} (body : Csv.row -> A -> M Log.t A) (acc : A)
    (rs : list Csv.row) (e : exn) (l : Log.t) : (exn + A) * PState :=
  match rs with
  | [] => (inl e, mkPState [] e l)
  | r :: rest =>
      match is_data r l with
      | (inl x, l') => (inl x, mkPState rest e l')
      | (inr false, l') => (inr acc, mkPState rest e l')
      | (inr true, l') =>
          match body r acc l' with
          | (inl x, l'') => (inl x, mkPState rest e l'')
          | (inr acc', l'') => section_loop body acc' rest e l''
          end
      end
  end.

Definition read_section {A} (body : Csv.row -> A -> M Log.t A) (acc : A)
  : M PState A :=
  fun s => section_loop body acc (rd_rows s) (rd_end s) (log s).

(* ================================================================== *)
(** * Utilities *)

Definition SUPPORTED_VERSIONS : list Z := [29; 30; 31; 32].
Definition DEFAULT_VERSION : Z := 30.

(** [x in xs] on integers *)
Definition Z_in (x : Z) (xs : list Z) : bool := existsb (Z.eqb x) xs.

Abbreviation busmap_t := (gmap string nat).

(** [_busidx(i, busmap)] *)
Definition _busidx (i : string) (busmap : busmap_t) : M Log.t (option nat) :=
  let i := PyStr.strip_chars "'" i in
  match busmap !! i with
  | Some c => ret (Some c)
  | None => do! Log.error (Log.BusNotFound i) in ret None
  end.

(** [_delimiter(fd)] *)
Definition _delimiter (fd : list string) : M Log.t ascii :=
  let! line := try_some StopIteration (head fd) in
  let header0 := PyStr.split_head "/" line in
  if PyStr.contains "," header0
  then do! Log.info Log.FoundComma in ret ","%char
  else do! Log.info Log.FoundWhitespace in ret " "%char.

(** [_version(fd, delimiter)] *)
Definition _version (fd : list string) (delimiter : ascii) : M Log.t Z :=
  let '(rows, e) := Csv.reader fd delimiter in
  let! h0 := try_some e (head rows) in
  if Nat.ltb (length h0) 3 then
    let version := DEFAULT_VERSION in
    do! Log.info (Log.NoVersionInfo version) in
    ret version
  else
    let! h2 := item h0 2 in
    let! version := (if PyStr.contains "/" h2
                     then py_int (PyStr.strip (PyStr.split_head "/" h2))
                     else py_int h2) in
    do! Log.info (Log.VersionFound version) in
    if negb (Z_in version SUPPORTED_VERSIONS) then
      do! Log.warning (Log.VersionNotSupported version) in
      ret DEFAULT_VERSION
    else ret version.

(* ================================================================== *)
(** * Section parsers *)

(** [row[0, j] = v] on a row under construction. *)
Definition setc (j : nat) (v : float) (r : list float) : list float :=
  <[j := v]> r.

(** [_case_identification(reader)] *)
Definition _case_identification : M PState float :=
  let! h0 := next in
  do! next in
  do! next in
  let! h00 := item h0 0 in
  if negb (String.eqb h00 "0" || String.eqb h00 "1") then raise AssertionError
  else float_item h0 1.

Definition buscol : nat := 13.

(** The body of the loop of [_bus_data]; the loop's variables are
    [buses], [busmap] and [c]. *)
Definition bus_record (version : Z) (busdata : Csv.row)
    (acc : table * busmap_t * nat) : M Log.t (table * busmap_t * nat) :=
  let '(buses, busmap, c) := acc in
  let bus := zeros buscol in
  let! i := item busdata 0 in
  let! name := item busdata 1 in
  let name := PyStr.strip_chars "'" name in
  let busmap := <[i := c]> busmap in
  let busmap := <[name := c]> busmap in
  let! n := py_int i in
  let! v := int_cell n in
  let bus := setc 0 v bus in
  let! v := float_item busdata 3 in
  let bus := setc 1 v bus in
  let bus := setc 2 PyNum.zero bus in
  let bus := setc 3 PyNum.zero bus in
  let! bus :=
    (if Z_in version [29; 30] then
       let! v := float_item busdata 4 in
       let bus := setc 4 v bus in
       let! v := float_item busdata 5 in
       let bus := setc 5 v bus in
       let! s := item busdata 6 in
       let! n := py_int s in
       let! v := int_cell n in
       let bus := setc 6 v bus in
       let! v := float_item busdata 8 in
       let bus := setc 7 v bus in
       let! v := float_item busdata 9 in
       let bus := setc 8 v bus in
       let! v := float_item busdata 7 in
       ret (setc 10 v bus)
     else if Z_in version [31; 32] then
       let! s := item busdata 4 in
       let! n := py_int s in
       let! v := int_cell n in
       let bus := setc 6 v bus in
       let! v := float_item busdata 7 in
       let bus := setc 7 v bus in
       let! v := float_item busdata 8 in
       let bus := setc 8 v bus in
       let! v := float_item busdata 5 in
       ret (setc 10 v bus)
     else ret bus) in
  let! v := float_item busdata 2 in
  let bus := setc 9 v bus in
  let bus := setc 11 (PyNum.of_decimal false 11 (-1)) bus in
  let bus := setc 12 (PyNum.of_decimal false 9 (-1)) bus in
  ret (r_ buses bus, busmap, S c).

(** [_bus_data(reader, version)] *)
Definition _bus_data (version : Z) : M PState (table * busmap_t) :=
  let! '(buses, busmap, c) := read_section (bus_record version) ([], ∅, O) in
  do! logged (Log.info (Log.BusRecords (Z.of_nat c))) in
  ret (buses, busmap).

(** The body of the loop of [_load_data]; the loop's variables are the
    bus table, which the source updates in place, and [c]. *)
Definition load_record (busmap : busmap_t) (version : Z) (loaddata : Csv.row)
    (acc : table * nat) : M Log.t (table * nat) :=
  let '(bus, c) := acc in
  let! s := item loaddata 2 in
  let status := PyStr.truthy s in
  let! i := item loaddata 0 in
  let! idx := _busidx i busmap in
  let! bus :=
    match status, idx with
    | true, Some idx =>
        let! v := float_item loaddata 5 in
        let! bus := put bus idx 2 v in
        let! v := float_item loaddata 6 in
        let! bus := put bus idx 3 v in
        let! Ip := float_item loaddata 7 in
        let! Iq := float_item loaddata 8 in
        do! when (PyNum.ftruthy Ip || PyNum.ftruthy Iq)
              (Log.warning (Log.ConstantCurrentIgnored Ip Iq i idx)) in
        let! Yp := float_item loaddata 9 in
        let! Yq := float_item loaddata 10 in
        do! when (PyNum.ftruthy Yp || PyNum.ftruthy Yq)
              (Log.warning (Log.ConstantAdmittanceIgnored Yp Yq i idx)) in
        do! (if Z.eqb version 32 then
               let! scale := float_item loaddata 12 in
               when (PyNum.fneb scale PyNum.zero || PyNum.fneb scale PyNum.one)
                 (Log.warning (Log.LoadNotScaled i idx scale))
             else ret tt) in
        ret bus
    | _, _ => ret bus
    end in
  ret (bus, S c).

(** [_load_data(reader, bus, busmap, version)] *)
Definition _load_data (bus : table) (busmap : busmap_t) (version : Z)
  : M PState table :=
  let! '(bus, c) := read_section (load_record busmap version) (bus, O) in
  do! logged (Log.info (Log.LoadRecords (Z.of_nat c))) in
  ret bus.

Definition gencol : nat := 21.

(** The body of the loop of [_generator_data]. *)
Definition generator_record (busmap : busmap_t) (gendata : Csv.row)
    (generators : table) : M Log.t table :=
  let! i := item gendata 0 in
  let! idx := _busidx i busmap in
  match idx with
  | Some _ =>
      let gen := zeros gencol in
      let! v := float_item gendata 2 in
      let gen := setc 1 v gen in
      let! v := float_item gendata 3 in
      let gen := setc 2 v gen in
      let! v := float_item gendata 4 in
      let gen := setc 3 v gen in
      let! v := float_item gendata 5 in
      let gen := setc 4 v gen in
      let! v := float_item gendata 6 in
      let gen := setc 5 v gen in
      let! v := float_item gendata 8 in
      let gen := setc 6 v gen in
      let! v := float_item gendata 14 in
      let gen := setc 7 v gen in
      let! v := float_item gendata 16 in
      let gen := setc 8 v gen in
      let! v := float_item gendata 17 in
      let gen := setc 9 v gen in
      ret (r_ generators gen)
  | None => ret generators
  end.

(** [_generator_data(reader, busmap)] *)
Definition _generator_data (busmap : busmap_t) : M PState table :=
  let! generators := read_section (generator_record busmap) [] in
  do! logged (Log.info (Log.GeneratorRecords (length generators))) in
  ret generators.

Definition brchcol : nat := 13.

(** The body of the loop of [_nontransformer_branch_data]. *)
Definition branch_record (bus : table) (busmap : busmap_t) (brchdata : Csv.row)
    (branches : table) : M Log.t table :=
  let! i := item brchdata 0 in
  let! fbus := _busidx i busmap in
  let! j := item brchdata 1 in
  let! tbus := _busidx j busmap in
  match fbus, tbus with
  | Some fbus, Some tbus =>
      let brch := zeros brchcol in
      let! v := get bus fbus 0 in
      let brch := setc 0 v brch in
      let! v := get bus tbus 1 in
      let brch := setc 1 v brch in
      let! v := float_item brchdata 3 in
      let brch := setc 2 v brch in
      let! v := float_item brchdata 4 in
      let brch := setc 3 v brch in
      let! v := float_item brchdata 5 in
      let brch := setc 4 v brch in
      let! v := float_item brchdata 6 in
      let brch := setc 5 v brch in
      let! v := float_item brchdata 7 in
      let brch := setc 6 v brch in
      let! v := float_item brchdata 8 in
      let brch := setc 7 v brch in
      let! v := float_item brchdata 13 in
      let brch := setc 10 v brch in
      let brch := setc 11 (PyNum.of_Z (-360)) brch in
      let brch := setc 12 (PyNum.of_Z 360) brch in
      ret (r_ branches brch)
  | _, _ => ret branches
  end.

(** [_nontransformer_branch_data(reader, bus, busmap)] *)
Definition _nontransformer_branch_data (bus : table) (busmap : busmap_t)
  : M PState table :=
  let! branches := read_section (branch_record bus busmap) [] in
  do! logged (Log.info (Log.BranchRecords (length branches))) in
  ret branches.

(** The body of the loop of [_switched_shunt_data]. *)
Definition shunt_record (version : Z) (busmap : busmap_t) (shuntdata : Csv.row)
    (acc : table * nat) : M Log.t (table * nat) :=
  let '(bus, c) := acc in
  let! status :=
    (if Z.eqb version 32 then
       let! s := item shuntdata 2 in ret (PyStr.truthy s)
     else ret true) in
  let! i := item shuntdata 0 in
  let! idx := _busidx i busmap in
  let! bus :=
    match status, idx with
    | true, Some idx =>
        let! bs := (if Z.eqb version 32 then float_item shuntdata 9
                    else float_item shuntdata 7) in
        let! old := get bus idx 5 in
        ret (set_cell bus idx 5 (PyNum.fadd old bs))
    | _, _ => ret bus
    end in
  ret (bus, S c).

(** [_switched_shunt_data(reader, bus, version, busmap)] *)
Definition _switched_shunt_data (bus : table) (version : Z) (busmap : busmap_t)
  : M PState table :=
  let! '(bus, c) := read_section (shunt_record version busmap) (bus, O) in
  do! logged (Log.info (Log.ShuntRecords (Z.of_nat c))) in
  ret bus.

(* ================================================================== *)
(** * Sections without a parser *)

(** A function definition: the number of its required positional
    parameters and its body.  The reader, which every section function
    takes as its first parameter, is the state of the body. *)
Definition pydef (A : Type) : Type := nat * M PState A.

(** [f(a1, ..., an)]: the body runs when [n] is the number of parameters
    of [f]; otherwise the call raises [TypeError] and the body is not
    entered. *)
Definition call {A} (f : pydef A) (nargs : nat) : M PState A :=
  if Nat.eqb (fst f) nargs then snd f else raise TypeError.

(** [def f(reader): pass] *)
Definition pass1 : pydef unit := (1%nat, ret tt).

(** [_transformer_data(reader, branch, version, busmap)] *)
Definition _transformer_data : pydef unit := (4%nat, ret tt).

Definition _fixed_shunt_data : pydef unit := pass1.
Definition _area_interchange_data : pydef unit := pass1.
Definition _two_terminal_dc_line_data : pydef unit := pass1.
Definition _vsc_dc_lines : pydef unit := pass1.
Definition _transformer_impedance_correction_tables : pydef unit := pass1.
Definition _multi_terminal_dc_transmission_line_data : pydef unit := pass1.
Definition _multi_section_line_grouping_data : pydef unit := pass1.
Definition _zone_data : pydef unit := pass1.
Definition _interarea_transfer_data : pydef unit := pass1.
Definition _owner_data : pydef unit := pass1.
Definition _facts_device_data : pydef unit := pass1.
Definition _q_record : pydef unit := pass1.

(* ================================================================== *)
(** * The power-flow converter *)

(** A value of the case dictionary. *)
Inductive value : Type :=
| VFloat (f : float)
| VTable (t : table).

(** The case dictionary [mpc]. *)
Abbreviation mpc_t := (gmap string value).

(** Runs a parse over [csv.reader(fd, delimiter=sep, skipinitialspace=True)]
    on the rewound file. *)
Definition with_reader {A} (fd : list string) (sep : ascii) (m : M PState A)
  : M Log.t A :=
  fun l => let '(rows, e) := Csv.reader fd sep in
           let '(r, s) := m (mkPState rows e l) in
           (r, log s).

(** The parse of [pf2mpc], from [_case_identification] on.  The bus table
    is one array that [_load_data] and [_switched_shunt_data] update in
    place; here each returns the updated table.  Where a call passes fewer
    arguments than the function has parameters the body is not entered; it
    is written with the values that are in scope at the call. *)
Definition pf2mpc_parse (version : option Z) (rev : Z) : M PState mpc_t :=
  let! baseMVA := _case_identification in
  let! '(busdata, busmap) := _bus_data rev in
  let! busdata := _load_data busdata busmap rev in
  do! when (Z_in rev [31; 32]) (call _fixed_shunt_data 1) in
  let! gendata := _generator_data busmap in
  let! branchdata := _nontransformer_branch_data busdata busmap in
  do! call _transformer_data 4 in
  do! call _area_interchange_data 1 in
  do! call _two_terminal_dc_line_data 1 in
  do! call _vsc_dc_lines 0 in
  let! busdata :=
    (if Z_in rev [29; 30]
     then call (4%nat, _switched_shunt_data busdata rev busmap) 2
     else ret busdata) in
  do! call _transformer_impedance_correction_tables 0 in
  do! call _multi_terminal_dc_transmission_line_data 0 in
  do! call _multi_section_line_grouping_data 0 in
  do! call _zone_data 0 in
  do! call _interarea_transfer_data 0 in
  do! call _owner_data 0 in
  do! call _facts_device_data 0 in
  let! busdata :=
    (if Z_in rev [31; 32]
     then call (4%nat, _switched_shunt_data busdata rev busmap) 0
     else ret busdata) in
  do! when (Z.eqb rev 32) (call _q_record 0) in
  let mpc : mpc_t :=
    <["branch" := VTable branchdata]>
      (<["gen" := VTable gendata]>
         (<["bus" := VTable busdata]>
            (<["baseMVA" := VFloat baseMVA]> ∅))) in
  ret mpc.

(** [pf2mpc(fd, version, delimiter)] *)
Definition pf2mpc (fd : list string) (version : option Z)
    (delimiter : option ascii) : M Log.t mpc_t :=
  let! sep := match delimiter with
              | None => _delimiter fd
              | Some d => ret d
              end in
  let! rev := match version with
              | None => _version fd sep
              | Some v => ret v
              end in
  with_reader fd sep (pf2mpc_parse version rev).

(** [opf2mpc(fd, version, delim)] *)
Definition opf2mpc (fd : list string) (version : option Z)
    (delim : option ascii) : M Log.t mpc_t :=
  ret ∅.

(* ================================================================== *)
(** * The top-level converter *)

(** An input argument of [raw2mpc]: a path (a [basestring]) or an open
    file. *)
Inductive source : Type :=
| Path (p : string)
| Stream (fd : list string).

Section Raw2mpc.

(** [open(path, "rb")]: the lines of the file, or [None] when it raises
    [IOError]. *)
Variable open_rb : string -> option (list string).

(** [savemat(matfile, {"mpc": mpc}, oned_as="col")]: [false] when it
    raises [IOError]. *)
Variable savemat : string -> mpc_t -> bool.

(** [raw2mpc(pf_rawfile, opf_rawfile, matfile, ver, delim)] *)
Definition raw2mpc (pf_rawfile : source) (opf_rawfile : option source)
    (matfile : option string) (ver : option Z) (delim : option ascii)
  : M Log.t (mpc_t * Z) :=
  let mpc : mpc_t := ∅ in
  let status := 0 in
  let! '(pf_mpc, status) :=
    match pf_rawfile with
    | Path p =>
        let fname := PyStr.basename p in
        do! Log.info (Log.LoadingPF fname) in
        match open_rb p with
        | None =>
            do! Log.error (Log.ErrorOpening fname) in
            ret (None, 1)
        | Some fd =>
            let! m := pf2mpc fd ver delim in
            ret (Some m, status)
        end
    | Stream fd =>
        let! m := pf2mpc fd ver delim in
        ret (Some m, status)
    end in
  let mpc := match pf_mpc with Some m => m ∪ mpc | None => mpc end in
  let! '(opf_mpc, status) :=
    match opf_rawfile with
    | Some (Path p) =>
        let fname := PyStr.basename p in
        do! Log.info (Log.LoadingOPF fname) in
        match open_rb p with
        | None =>
            do! Log.error (Log.ErrorOpening fname) in
            ret (None, 2)
        | Some fd =>
            let! m := opf2mpc fd ver delim in
            ret (Some m, status)
        end
    | Some (Stream fd) =>
        let! m := opf2mpc fd ver delim in
        ret (Some m, status)
    | None => ret (None, status)
    end in
  let mpc := match opf_mpc with Some m => m ∪ mpc | None => mpc end in
  let! status :=
    match matfile with
    | Some f =>
        if Nat.ltb 0 (size mpc) then
          if savemat f mpc then ret status
          else
            do! Log.error (Log.ErrorSaving f) in
            ret 3
        else ret status
    | None => ret status
    end in
  ret (mpc, status).

End Raw2mpc.

(* ================================================================== *)
(** * Inputs used in the examples *)

Module Examples.

Definition nl : string := String "010" "".
Definition line (s : string) : string := String.append s nl.

(** A comma-delimited revision 30 file: base 100 MVA, one bus, one load
    of (50, 20) on it, and every other section empty. *)
Definition scenario : list string :=
  map line
    ["0, 100.0, 30 / example case";
     "first title line";
     "second title line";
     "1, 'BUS1', 138.0, 1, 0.0, 0.0, 1, 1, 1.0, 0.0, 1";
     "0 / END OF BUS DATA, BEGIN LOAD DATA";
     "1, '1', 1, 1, 1, 50.0, 20.0, 0.0, 0.0, 0.0, 0.0, 1";
     "0 / END OF LOAD DATA, BEGIN GENERATOR DATA";
     "0 / END OF GENERATOR DATA, BEGIN BRANCH DATA";
     "0 / END OF BRANCH DATA, BEGIN TRANSFORMER DATA";
     "0 / END OF TRANSFORMER DATA, BEGIN AREA DATA";
     "0 / END OF AREA DATA, BEGIN TWO-TERMINAL DC DATA";
     "0 / END OF TWO-TERMINAL DC DATA, BEGIN VSC DC LINE DATA";
     "0 / END OF VSC DC LINE DATA, BEGIN SWITCHED SHUNT DATA";
     "0 / END OF SWITCHED SHUNT DATA, BEGIN IMPEDANCE CORRECTION DATA";
     "0 / END OF IMPEDANCE CORRECTION DATA, BEGIN MULTI-TERMINAL DC DATA";
     "0 / END OF MULTI-TERMINAL DC DATA, BEGIN MULTI-SECTION LINE DATA";
     "0 / END OF MULTI-SECTION LINE DATA, BEGIN ZONE DATA";
     "0 / END OF ZONE DATA, BEGIN INTER-AREA TRANSFER DATA";
     "0 / END OF INTER-AREA TRANSFER DATA, BEGIN OWNER DATA";
     "0 / END OF OWNER DATA, BEGIN FACTS DEVICE DATA";
     "0 / END OF FACTS DEVICE DATA"].

(** The bus table and bus map of a case with the single bus of
    [scenario]: what [_bus_data] returns on its bus section. *)
Definition one_bus : table :=
  [[PyNum.of_Z 1; PyNum.of_Z 1; PyNum.zero; PyNum.zero; PyNum.zero;
    PyNum.zero; PyNum.of_Z 1; PyNum.of_Z 1; PyNum.zero; PyNum.of_Z 138;
    PyNum.of_Z 1; PyNum.of_decimal false 11 (-1);
    PyNum.of_decimal false 9 (-1)]].

Definition one_bus_map : busmap_t := <["BUS1" := O]> (<["1" := O]> ∅).

(** A reader that holds the given records and then is exhausted. *)
Definition reading (rs : list Csv.row) : PState := mkPState rs StopIteration [].

Definition sentinel : Csv.row := ["0 / END OF SECTION"].

End Examples.

(* ================================================================== *)
(** * The part of [pf2mpc] that runs *)

(** The statements of [pf2mpc] from [_case_identification] to the call of
    [_two_terminal_dc_line_data], with the tables they have built. *)
Definition sections_before_vsc (rev : Z) : M PState (float * table * table * table) :=
  let! baseMVA := _case_identification in
  let! '(busdata, busmap) := _bus_data rev in
  let! busdata := _load_data busdata busmap rev in
  do! when (Z_in rev [31; 32]) (call _fixed_shunt_data 1) in
  let! gendata := _generator_data busmap in
  let! branchdata := _nontransformer_branch_data busdata busmap in
  do! call _transformer_data 4 in
  do! call _area_interchange_data 1 in
  do! call _two_terminal_dc_line_data 1 in
  ret (baseMVA, busdata, gendata, branchdata).

(** [pf2mpc] up to the same point. *)
Definition pf2mpc_before_vsc (fd : list string) (version : option Z)
    (delimiter : option ascii) : M Log.t (float * table * table * table) :=
  let! sep := match delimiter with
              | None => _delimiter fd
              | Some d => ret d
              end in
  let! rev := match version with
              | None => _version fd sep
              | Some v => ret v
              end in
  with_reader fd sep (sections_before_vsc rev).

(** What is left of a computation that goes on to a call that raises
    [TypeError]: its own exception if it raises, [TypeError] if not. *)
Definition then_TypeError {S A B} (r : (exn + A) * S) : (exn + B) * S :=
  match r with
  | (inl e, s) => (inl e, s)
  | (inr _, s) => (inl TypeError, s)
  end.

(* ================================================================== *)
(** * Definitions the statements use *)

(** A section sentinel: the loop test of the section parsers is false. *)
Definition is_sentinel (r : Csv.row) : bool :=
  match r with
  | f :: _ => String.eqb (PyStr.strip (PyStr.split_head "/" f)) "0"
  | [] => false
  end.

(** Where the cursor stands once a section has been consumed up to and
    including its sentinel: the records after the first sentinel. *)
Fixpoint skip_section (rs : list Csv.row) : list Csv.row :=
  match rs with
  | [] => []
  | r :: rest => if is_sentinel r then rest else skip_section rest
  end.

(** The sections the source defines as [def f(reader): pass]. *)
Definition placeholders : list (pydef unit) :=
  [_fixed_shunt_data; _area_interchange_data; _two_terminal_dc_line_data;
   _vsc_dc_lines; _transformer_impedance_correction_tables;
   _multi_terminal_dc_transmission_line_data;
   _multi_section_line_grouping_data; _zone_data; _interarea_transfer_data;
   _owner_data; _facts_device_data; _q_record].

Definition is_some {A} (o : option A) : bool :=
  match o with Some _ => true | None => false end.

(** [float(r[k])] when the field exists and is a float literal. *)
Definition float_at (r : Csv.row) (k : nat) : option float :=
  match r !! k with Some s => PyNum.float_of_string s | None => None end.

(** The row index a record's field [k] resolves to in the bus map. *)
Definition resolves (busmap : busmap_t) (r : Csv.row) (k : nat) : option nat :=
  match r !! k with
  | Some i => busmap !! PyStr.strip_chars "'" i
  | None => None
  end.

(** A switched-shunt record of the revision 29 to 31 layout that the
    parser can process on the bus table [bus]: it is not a sentinel, and
    if its bus resolves then the bus row has a Bs cell and the record's
    BINIT field (column 7) is a float literal. *)
Definition shunt_row_ok (bus : table) (busmap : busmap_t) (r : Csv.row) : bool :=
  is_some (r !! 0%nat) && negb (is_sentinel r) &&
  match resolves busmap r 0 with
  | Some idx => is_some (cell bus idx 5) && is_some (float_at r 7)
  | None => true
  end.

(** The susceptances that the records of a switched-shunt section bring
    to the bus at row [k], in file order: the BINIT field of every record
    whose bus identifier resolves to [k]. *)
Definition shunt_values (busmap : busmap_t) (k : nat) (rows : list Csv.row)
  : list float :=
  omap (fun r => match resolves busmap r 0 with
                 | Some idx => if Nat.eqb idx k then float_at r 7 else None
                 | None => None
                 end) rows.

(** The numeric fields that [_nontransformer_branch_data] reads from a
    record are all float literals. *)
Definition branch_fields_ok (brchdata : Csv.row) : bool :=
  forallb (fun k => is_some (float_at brchdata k)) [3; 4; 5; 6; 7; 8; 13]%nat.

(** The text [_version] reads the revision from: the third header field
    without its trailing comment. *)
Definition revision_text (h2 : string) : string :=
  if PyStr.contains "/" h2 then PyStr.strip (PyStr.split_head "/" h2) else h2.

(** Whether opening an input of [raw2mpc] fails. *)
Definition open_fails (open_rb : string -> option (list string))
    (src : option source) : bool :=
  match src with
  | Some (Path p) => negb (is_some (open_rb p))
  | _ => false
  end.

(** Whether [raw2mpc] attempts to save the case [mpc] and fails. *)
Definition save_fails (savemat : string -> mpc_t -> bool)
    (matfile : option string) (mpc : mpc_t) : bool :=
  match matfile with
  | Some f => Nat.ltb 0 (size mpc) && negb (savemat f mpc)
  | None => false
  end.

(** The status code of the last failure of a run, [0] without one: the
    save is attempted after the secondary input is opened, which is after
    the primary input is opened. *)
Definition last_failure_code (pf_failed opf_failed save_failed : bool) : Z :=
  if save_failed then 3 else if opf_failed then 2 else if pf_failed then 1 else 0.

(** The status code of the first failure of a run. *)
Definition first_failure_code (pf_failed opf_failed save_failed : bool) : Z :=
  if pf_failed then 1 else if opf_failed then 2 else if save_failed then 3 else 0.

Module Inputs.
Import Examples.

(** A load record of the revision 29 to 31 layout
    (I, ID, STATUS, AREA, ZONE, PL, QL, IP, IQ, YP, YQ, OWNER). *)
Definition load (i status pl ql : string) : Csv.row :=
  [i; "'1'"; status; "1"; "1"; pl; ql; "0.0"; "0.0"; "0.0"; "0.0"; "1"].

(** The same with the SCALE field of revision 32. *)
Definition load32 (i status pl ql scale : string) : Csv.row :=
  load i status pl ql ++ [scale].

(** A fixed-shunt record of revisions 31 and 32 (I, ID, STATUS, GL, BL). *)
Definition fixed_shunt : Csv.row := ["1"; "'1'"; "1"; "0.0"; "10.0"].

(** A switched-shunt record of revisions 29 and 30 with the given
    BINIT. *)
Definition shunt (i binit : string) : Csv.row :=
  [i; "0"; "1.1"; "0.9"; "0"; "100.0"; "' '"; binit; "1"; binit].

(** Two buses, 101 of type 1 and 102 of type 2. *)
Definition two_buses : table :=
  [[PyNum.of_Z 101; PyNum.of_Z 1; PyNum.zero; PyNum.zero; PyNum.zero;
    PyNum.zero; PyNum.of_Z 1; PyNum.of_Z 1; PyNum.zero; PyNum.of_Z 138;
    PyNum.of_Z 1; PyNum.of_decimal false 11 (-1);
    PyNum.of_decimal false 9 (-1)];
   [PyNum.of_Z 102; PyNum.of_Z 2; PyNum.zero; PyNum.zero; PyNum.zero;
    PyNum.zero; PyNum.of_Z 1; PyNum.of_Z 1; PyNum.zero; PyNum.of_Z 138;
    PyNum.of_Z 1; PyNum.of_decimal false 11 (-1);
    PyNum.of_decimal false 9 (-1)]].

Definition two_buses_map : busmap_t :=
  <["B"%string := 1%nat]> (<["102" := 1%nat]>
    (<["A"%string := O]> (<["101" := O]> ∅))).

(** The bus section that [two_buses] comes from. *)
Definition two_buses_section : list Csv.row :=
  [["101"; "'A'"; "138.0"; "1"; "0.0"; "0.0"; "1"; "1"; "1.0"; "0.0"; "1"];
   ["102"; "'B'"; "138.0"; "2"; "0.0"; "0.0"; "1"; "1"; "1.0"; "0.0"; "1"];
   sentinel].

(** A branch from bus 101 to bus 102
    (I, J, CKT, R, X, B, RATEA, RATEB, RATEC, GI, BI, GJ, BJ, ST, LEN). *)
Definition branch_101_102 : Csv.row :=
  ["101"; "102"; "'1'"; "0.01"; "0.1"; "0.02"; "100.0"; "110.0"; "120.0";
   "0.0"; "0.0"; "0.0"; "0.0"; "1"; "1.0"].

(** A file system without any file, and a [savemat] that succeeds. *)
Definition no_file : string -> option (list string) := fun _ => None.
Definition save_ok : string -> mpc_t -> bool := fun _ _ => true.

End Inputs.

(* ================================================================== *)
(** * Definitions for the properties of the section parsers *)

(** The records of the section under the cursor: those before the first
    sentinel. *)
Fixpoint section_body (rs : list Csv.row) : list Csv.row :=
  match rs with
  | [] => []
  | r :: rest => if is_sentinel r then [] else r :: section_body rest
  end.


(** The two endpoints of a branch record resolve. *)
Definition both_resolve (busmap : busmap_t) (r : Csv.row) : bool :=
  is_some (resolves busmap r 0) && is_some (resolves busmap r 1).

(** The shape [_bus_data] gives every bus row: 13 cells, no load yet and
    the voltage limits 1.1 and 0.9. *)
Definition bus_row_ok (r : list float) : Prop :=
  length r = 13%nat
  /\ r !! 2%nat = Some PyNum.zero /\ r !! 3%nat = Some PyNum.zero
  /\ r !! 11%nat = Some (PyNum.of_decimal false 11 (-1))
  /\ r !! 12%nat = Some (PyNum.of_decimal false 9 (-1)).

(** The shape [_generator_data] gives every generator row: the bus cell
    and the eleven cells after Pmin are zero. *)
Definition gen_row_ok (g : list float) : Prop :=
  exists pg qg qmax qmin vg mbase status pmax pmin,
    g = [PyNum.zero; pg; qg; qmax; qmin; vg; mbase; status; pmax; pmin]
          ++ replicate 11 PyNum.zero.

(** The shape [_nontransformer_branch_data] gives every branch row: tap
    ratio and shift angle zero, angle limits -360 and 360. *)
Definition branch_row_ok (b : list float) : Prop :=
  exists fbus tbus r x bb rateA rateB rateC status,
    b = [fbus; tbus; r; x; bb; rateA; rateB; rateC; PyNum.zero; PyNum.zero;
         status; PyNum.of_Z (-360); PyNum.of_Z 360].

(** Two tables of the same shape that agree outside the columns [cols]. *)
Definition same_outside (cols : list nat) (t t' : table) : Prop :=
  length t' = length t
  /\ (forall k j, is_some (cell t' k j) = is_some (cell t k j))
  /\ (forall k j, j ∉ cols -> cell t' k j = cell t k j).

Module MoreInputs.

(** A generator record
    (I, ID, PG, QG, QT, QB, VS, IREG, MBASE, ZR, ZX, RT, XT, GTAP, STAT,
    RMPCT, PT, PB). *)
Definition generator (i : string) : Csv.row :=
  [i; "'1'"; "40.0"; "10.0"; "30.0"; "-30.0"; "1.02"; "0"; "100.0"; "0.0";
   "1.0"; "0.0"; "0.0"; "1.0"; "1"; "100.0"; "80.0"; "0.0"].

(** The generator row that [generator] parses to. *)
Definition generator_row : list float :=
  [PyNum.zero; PyNum.of_Z 40; PyNum.of_Z 10; PyNum.of_Z 30; PyNum.of_Z (-30);
   PyNum.of_decimal false 102 (-2); PyNum.of_Z 100; PyNum.of_Z 1;
   PyNum.of_Z 80; PyNum.zero] ++ replicate 11 PyNum.zero.

(** The branch row that [Inputs.branch_101_102] parses to. *)
Definition branch_row : list float :=
  [PyNum.of_Z 101; PyNum.of_Z 2; PyNum.of_decimal false 1 (-2);
   PyNum.of_decimal false 1 (-1); PyNum.of_decimal false 2 (-2);
   PyNum.of_Z 100; PyNum.of_Z 110; PyNum.of_Z 120; PyNum.zero; PyNum.zero;
   PyNum.of_Z 1; PyNum.of_Z (-360); PyNum.of_Z 360].

(** A branch record whose to bus is not in [Inputs.two_buses_map]. *)
Definition branch_101_999 : Csv.row :=
  ["101"; "999"; "'1'"; "0.01"; "0.1"; "0.02"; "100.0"; "110.0"; "120.0";
   "0.0"; "0.0"; "0.0"; "0.0"; "1"; "1.0"].

(** The records of a file with a three-line header and four empty
    sections. *)
Definition minimal (base : string) : list Csv.row :=
  [["0"; base; "30"]; ["title"]; []; Examples.sentinel; Examples.sentinel;
   Examples.sentinel; Examples.sentinel].

End MoreInputs.


(** A float that is neither an infinity nor a NaN. *)
Definition finite (x : float) : bool :=
  match x with
  | S754_finite _ _ _ | S754_zero _ => true
  | _ => false
  end.

(** A record with a first field that is no sentinel and names a bus the
    bus map does not hold. *)
Definition unresolved (busmap : busmap_t) (r : Csv.row) : bool :=
  is_some (r !! 0%nat) && negb (is_sentinel r)
  && negb (is_some (resolves busmap r 0)).

(** The error record [_busidx] logs for the first field of a record. *)
Definition not_found (r : Csv.row) : Log.record :=
  (Log.ERROR,
   Log.BusNotFound (PyStr.strip_chars "'" (default EmptyString (r !! 0%nat)))).

(* ================================================================== *)
(** * Proofs *)

Ltac run_stage :=
  match goal with
  | |- context [match ?m ?s with (_, _) => _ end] =>
      let r := fresh "r" in
      let s' := fresh "s" in
      destruct (m s) as [[? | r] s']; [reflexivity | try destruct r as [? ?]]
  end.

Lemma pf2mpc_parse_stops version rev s :
  pf2mpc_parse version rev s = then_TypeError (sections_before_vsc rev s).
Proof.
  unfold pf2mpc_parse, sections_before_vsc, then_TypeError, bind.
  do 3 run_stage. 
  destruct (when _ _ _) as [[? | ?] ?]; [reflexivity |].
  do 2 run_stage.
  reflexivity.
Qed.

Lemma pf2mpc_stops fd version delimiter l :
  pf2mpc fd version delimiter l
  = then_TypeError (pf2mpc_before_vsc fd version delimiter l).
Proof.
  unfold pf2mpc, pf2mpc_before_vsc, bind.
  do 2 run_stage.
  unfold with_reader.
  destruct (Csv.reader fd _) as [rows e].
  rewrite pf2mpc_parse_stops.
  destruct (sections_before_vsc _ _) as [[? | ?] ?]; reflexivity.
Qed.

Lemma then_TypeError_raises {S A B} (r : (exn + A) * S) :
  exists e s, @then_TypeError S A B r = (inl e, s).
Proof. destruct r as [[e | a] s]; simpl; eauto. Qed.

Lemma pf2mpc_raises fd version delimiter l :
  exists e l', pf2mpc fd version delimiter l = (inl e, l').
Proof. rewrite pf2mpc_stops. apply then_TypeError_raises. Qed.

(** The bus section of [Examples.scenario] parses to [Examples.one_bus]
    and [Examples.one_bus_map]. *)
Example one_bus_parsed :
  fst (_bus_data 30
         (Examples.reading
            [["1"; "'BUS1'"; "138.0"; "1"; "0.0"; "0.0"; "1"; "1"; "1.0";
              "0.0"; "1"]; Examples.sentinel]))
  = inr (Examples.one_bus, Examples.one_bus_map).
Proof. vm_compute. reflexivity. Qed.

Example two_buses_parsed :
  fst (_bus_data 30 (Examples.reading Inputs.two_buses_section))
  = inr (Inputs.two_buses, Inputs.two_buses_map).
Proof. vm_compute. reflexivity. Qed.

(** C1.  On the end-to-end scenario (comma-delimited revision 30 header
    with base 100 MVA, one bus, one load of (50, 20) on it, every other
    section empty) the sections up to the two-terminal DC lines build the
    tables the scenario expects: base 100.0, one bus row with Pd/Qd
    (50, 20), no generator and no branch.  [pf2mpc] then calls
    [_vsc_dc_lines()] without its parameter and raises [TypeError]: it
    returns no case model. *)
Theorem pf2mpc_scenario_raises :
  fst (pf2mpc_before_vsc Examples.scenario None None [])
  = inr (PyNum.of_Z 100,
         [[PyNum.of_Z 1; PyNum.of_Z 1; PyNum.of_Z 50; PyNum.of_Z 20;
           PyNum.zero; PyNum.zero; PyNum.of_Z 1; PyNum.of_Z 1; PyNum.zero;
           PyNum.of_Z 138; PyNum.of_Z 1; PyNum.of_decimal false 11 (-1);
           PyNum.of_decimal false 9 (-1)]],
         [], [])
  /\ fst (pf2mpc Examples.scenario None None []) = inl TypeError.
Proof. split; vm_compute; reflexivity. Qed.

(** C2, the claim as stated fails: on the empty stream [pf2mpc] raises
    [StopIteration] from [_delimiter], not [TypeError]. *)
Lemma pf2mpc_empty_stream :
  fst (pf2mpc [] None None []) = inl StopIteration
  /\ fst (pf2mpc [] None None []) <> inl TypeError.
Proof. split; [vm_compute; reflexivity | vm_compute; discriminate]. Qed.

(** C2, amended.  For every input stream, revision and delimiter,
    [pf2mpc] returns no case model: it raises the exception of the first
    of the sections before the VSC DC lines that raises one, and
    [TypeError], from the call [_vsc_dc_lines()] without the parameter of
    the definition, when none does. *)
Theorem pf2mpc_never_returns (fd : list string) (version : option Z)
    (delimiter : option ascii) (l : Log.t) :
  pf2mpc fd version delimiter l
  = then_TypeError (pf2mpc_before_vsc fd version delimiter l)
  /\ exists e l', pf2mpc fd version delimiter l = (inl e, l').
Proof.
  split; [apply pf2mpc_stops | apply pf2mpc_raises].
Qed.

(** C3.  Two load rows with true status on the bus of
    [Examples.one_bus], with demands (10, 5) and then (3, 1): each row
    assigns the Pd/Qd cells, so the bus is left with (3, 1), the demand of
    the last row, not with the sum (13, 6). *)
Theorem load_rows_overwrite :
  let r := _load_data Examples.one_bus Examples.one_bus_map 30
             (Examples.reading [Inputs.load "1" "1" "10.0" "5.0";
                                Inputs.load "1" "1" "3.0" "1.0";
                                Examples.sentinel]) in
  match fst r with
  | inr bus => (cell bus 0 2, cell bus 0 3)
  | inl _ => (None, None)
  end = (Some (PyNum.of_Z 3), Some (PyNum.of_Z 1)).
Proof. vm_compute. reflexivity. Qed.

(** C5.  A load row whose status field is the text [0] is not skipped:
    [bool] of a non-empty text is true, and the row sets the Pd/Qd cells
    of its bus to its demand (50, 20). *)
Theorem load_row_status_0_not_skipped :
  PyStr.truthy "0" = true
  /\ let r := _load_data Examples.one_bus Examples.one_bus_map 30
                (Examples.reading [Inputs.load "1" "0" "50.0" "20.0";
                                   Examples.sentinel]) in
     match fst r with
     | inr bus => (cell bus 0 2, cell bus 0 3)
     | inl _ => (None, None)
     end = (Some (PyNum.of_Z 50), Some (PyNum.of_Z 20)).
Proof. split; vm_compute; reflexivity. Qed.

Lemma scale_test_always (scale : float) :
  PyNum.fneb scale PyNum.zero || PyNum.fneb scale PyNum.one = true.
Proof.
  destruct scale as [[] | [] | | [] m e]; try reflexivity.
Qed.

(** C6.  At revision 32 a load row whose scale factor is 1.0 logs the
    not-scaled warning all the same: the test
    [(scale != 0.0) or (scale != 1.0)] holds for every number. *)
Theorem load_scale_1_warns :
  (forall scale : float,
      PyNum.fneb scale PyNum.zero || PyNum.fneb scale PyNum.one = true)
  /\ log (snd (_load_data Examples.one_bus Examples.one_bus_map 32
                 (Examples.reading [Inputs.load32 "1" "1" "50.0" "20.0" "1.0";
                                    Examples.sentinel])))
     = [(Log.WARNING, Log.LoadNotScaled "1" 0 PyNum.one);
        (Log.INFO, Log.LoadRecords 1)].
Proof. split; [apply scale_test_always | vm_compute; reflexivity]. Qed.

(** C4, the claim as stated fails: with the cursor at a fixed-shunt
    section of one record, [_fixed_shunt_data] returns with the cursor
    where it was, not after the section's sentinel, and the generator
    parser that follows reads the fixed-shunt record as a generator
    record (and fails on its missing fields). *)
Lemma fixed_shunt_rows_not_consumed :
  let s := Examples.reading
             [Inputs.fixed_shunt; Examples.sentinel; Examples.sentinel] in
  let s' := snd (call _fixed_shunt_data 1 s) in
  rd_rows s' = [Inputs.fixed_shunt; Examples.sentinel; Examples.sentinel]
  /\ skip_section (rd_rows s) = [Examples.sentinel]
  /\ rd_rows s' <> skip_section (rd_rows s)
  /\ fst (_generator_data Examples.one_bus_map s') = inl IndexError.
Proof.
  repeat split; try (vm_compute; reflexivity).
  vm_compute. discriminate.
Qed.

(** C4, amended.  Every section that the source defines without parsing
    logic is a no-op: called with the reader it returns at once, consumes
    no record (the cursor stays where it was, before the section's rows),
    logs nothing and contributes nothing to the case model. *)
Theorem placeholders_consume_nothing :
  Forall (fun f : pydef unit => forall s : PState, call f 1 s = (inr tt, s))
         placeholders.
Proof.
  unfold placeholders.
  repeat (apply Forall_cons; split; [intros s; reflexivity |]).
  apply Forall_nil; exact I.
Qed.

(** C8, the claim as stated fails: when the primary and the secondary
    input both fail to open, the status returned is 2, the code assigned
    last, where the first code assigned is 1. *)
Lemma raw2mpc_both_fail_returns_2 :
  fst (raw2mpc Inputs.no_file Inputs.save_ok (Path "case.raw")
         (Some (Path "case.rop")) (Some "case.mat") None None [])
  = inr (∅, 2)
  /\ first_failure_code true true false = 1.
Proof. split; vm_compute; reflexivity. Qed.

(** C8, amended.  When the primary and the secondary input both fail to
    open in one [raw2mpc] call, the status code returned is 2; and
    whenever [raw2mpc] returns, its status code is the code assigned last
    in that run (1 for the primary input, then 2 for the secondary input,
    then 3 for the save): a later failure overwrites the code of an
    earlier one, codes are not combined, and only the last failure
    category met is reported. *)
Theorem raw2mpc_reports_last_failure
    (open_rb : string -> option (list string)) (savemat : string -> mpc_t -> bool)
    (pf_rawfile : source) (opf_rawfile : option source)
    (matfile : option string) (ver : option Z) (delim : option ascii)
    (l : Log.t) :
  (open_fails open_rb (Some pf_rawfile) = true ->
   open_fails open_rb opf_rawfile = true ->
   fst (raw2mpc open_rb savemat pf_rawfile opf_rawfile matfile ver delim l)
   = inr (∅, 2))
  /\ (forall mpc status l',
         raw2mpc open_rb savemat pf_rawfile opf_rawfile matfile ver delim l
         = (inr (mpc, status), l') ->
         status = last_failure_code (open_fails open_rb (Some pf_rawfile))
                    (open_fails open_rb opf_rawfile)
                    (save_fails savemat matfile mpc)).
Proof.
  split.
  - intros Hpf Hopf.
    destruct pf_rawfile as [p | fd]; [| discriminate].
    destruct opf_rawfile as [[q | fd] |]; try discriminate.
    simpl in Hpf, Hopf.
    unfold raw2mpc, bind, Log.info, Log.error, ret.
    destruct (open_rb p); [discriminate |].
    destruct (open_rb q); [discriminate |].
    destruct matfile; reflexivity.
  - intros mpc status l' H.
    unfold raw2mpc, bind, Log.info, Log.error, ret in H.
    destruct pf_rawfile as [p | fd].
    + simpl. destruct (open_rb p) as [fd |] eqn:Hp.
      * destruct (pf2mpc_raises fd ver delim
                    (l ++ [(Log.INFO, Log.LoadingPF (PyStr.basename p))]))
          as (e & l1 & He).
        rewrite He in H. discriminate.
      * destruct opf_rawfile as [[q | fd] |]; simpl.
        -- destruct (open_rb q) as [fd |] eqn:Hq; unfold opf2mpc, ret in H;
             destruct matfile; simpl in H; inversion H; subst; reflexivity.
        -- unfold opf2mpc, ret in H.
           destruct matfile; simpl in H; inversion H; subst; reflexivity.
        -- destruct matfile; simpl in H; inversion H; subst; reflexivity.
    + destruct (pf2mpc_raises fd ver delim l) as (e & l1 & He).
      rewrite He in H. discriminate.
Qed.

Lemma raw2mpc_reports_last_failure_witness :
  fst (raw2mpc Inputs.no_file Inputs.save_ok (Path "case.raw")
         (Some (Path "case.rop")) (Some "case.mat") None None [])
  = inr (∅, 2).
Proof.
  apply (proj1 (raw2mpc_reports_last_failure Inputs.no_file Inputs.save_ok
                  (Path "case.raw") (Some (Path "case.rop"))
                  (Some "case.mat") None None []));
    reflexivity.
Defined.

(** Revision detection on the header [0, 100.0, abc] and on the empty
    stream: it raises [ValueError] and [StopIteration]. *)
Lemma _version_can_fail :
  fst (_version [Examples.line "0, 100.0, abc"] ","%char []) = inl ValueError
  /\ fst (_version [] ","%char []) = inl StopIteration.
Proof. split; vm_compute; reflexivity. Qed.

(** X18.  When the reader yields a first header record, revision
    detection gives: revision 30 if the record has fewer than three
    fields; otherwise, if the third field (with any trailing /-comment
    stripped) reads as an integer [v], the revision [v] when it is one of
    29, 30, 31, 32, and else a warning and revision 30, the parse going on
    rather than aborting. *)
Theorem _version_detects (fd : list string) (sep : ascii) (l : Log.t)
    (h0 : Csv.row) (rest : list Csv.row) (e : exn) :
  Csv.reader fd sep = (h0 :: rest, e) ->
  ((length h0 < 3)%nat ->
   _version fd sep l = (inr 30, l ++ [(Log.INFO, Log.NoVersionInfo 30)]))
  /\ (forall h2 v,
         h0 !! 2%nat = Some h2 -> PyNum.int (revision_text h2) = Some v ->
         _version fd sep l
         = if Z_in v SUPPORTED_VERSIONS
           then (inr v, l ++ [(Log.INFO, Log.VersionFound v)])
           else (inr 30, (l ++ [(Log.INFO, Log.VersionFound v)])
                           ++ [(Log.WARNING, Log.VersionNotSupported v)])).
Proof.
  intros Hrd. unfold _version. rewrite Hrd.
  unfold bind, try_some, ret. cbn [head hd_error]. split.
  - intros Hlen. apply Nat.ltb_lt in Hlen. rewrite Hlen. reflexivity.
  - intros h2 v Hh2 Hv.
    assert (Hlen : (length h0 <? 3)%nat = false).
    { apply Nat.ltb_ge. apply lookup_lt_Some in Hh2. lia. }
    rewrite Hlen. unfold item, try_some, ret. rewrite Hh2.
    unfold revision_text in Hv. unfold py_int, try_some, ret, raise.
    destruct (PyStr.contains "/" h2); rewrite Hv; unfold Log.info, Log.warning;
      destruct (Z_in v SUPPORTED_VERSIONS); reflexivity.
Qed.

Lemma _version_detects_witness :
  _version [Examples.line "0, 100.0, 99 / unknown revision"] ","%char []
  = (inr 30, [(Log.INFO, Log.VersionFound 99);
              (Log.WARNING, Log.VersionNotSupported 99)]).
Proof.
  apply (proj2 (_version_detects
                  [Examples.line "0, 100.0, 99 / unknown revision"] ","%char []
                  ["0"; "100.0"; "99 / unknown revision"] [] StopIteration
                  eq_refl)
           "99 / unknown revision" 99 eq_refl eq_refl).
Defined.

(** ** Reading fields and resolving buses *)

Lemma item_at {S} (r : Csv.row) (k : nat) (x : string) (s : S) :
  r !! k = Some x -> item r k s = (inr x, s).
Proof. intros H. unfold item, try_some. rewrite H. reflexivity. Qed.

Lemma float_item_at {S} (r : Csv.row) (k : nat) (v : float) (s : S) :
  float_at r k = Some v -> float_item r k s = (inr v, s).
Proof.
  unfold float_at, float_item, bind, item, py_float, try_some.
  destruct (r !! k) as [x |]; [| discriminate].
  intros H. simpl. rewrite H. reflexivity.
Qed.

Lemma is_some_Some {A} (o : option A) :
  is_some o = true -> exists a, o = Some a.
Proof. destruct o; [eauto | discriminate]. Qed.

Lemma _busidx_found (i : string) (busmap : busmap_t) (c : nat) (l : Log.t) :
  busmap !! PyStr.strip_chars "'" i = Some c ->
  _busidx i busmap l = (inr (Some c), l).
Proof. intros H. unfold _busidx. rewrite H. reflexivity. Qed.

Lemma _busidx_missing (i : string) (busmap : busmap_t) (l : Log.t) :
  busmap !! PyStr.strip_chars "'" i = None ->
  _busidx i busmap l
  = (inr None, l ++ [(Log.ERROR, Log.BusNotFound (PyStr.strip_chars "'" i))]).
Proof. intros H. unfold _busidx. rewrite H. reflexivity. Qed.

Lemma is_data_sentinel {S} (r : Csv.row) (f : string) (s : S) :
  r !! 0%nat = Some f -> is_data r s = (inr (negb (is_sentinel r)), s).
Proof.
  destruct r as [| f' r']; [discriminate |].
  intros H. injection H as ->. reflexivity.
Qed.

(** C7, the claim as stated fails: a branch from bus 101 (row 0, type 1)
    to bus 102 (row 1, type 2) is appended with first fields 101.0, the
    identifier of the from bus, and 2.0, the type code of the to bus; the
    row indices are 0 and 1. *)
Lemma branch_fields_are_not_row_indices :
  fst (branch_record Inputs.two_buses Inputs.two_buses_map
         Inputs.branch_101_102 [] [])
  = inr [[PyNum.of_Z 101; PyNum.of_Z 2; PyNum.of_decimal false 1 (-2);
          PyNum.of_decimal false 1 (-1); PyNum.of_decimal false 2 (-2);
          PyNum.of_Z 100; PyNum.of_Z 110; PyNum.of_Z 120; PyNum.zero;
          PyNum.zero; PyNum.of_Z 1; PyNum.of_Z (-360); PyNum.of_Z 360]]
  /\ resolves Inputs.two_buses_map Inputs.branch_101_102 0 = Some 0%nat
  /\ resolves Inputs.two_buses_map Inputs.branch_101_102 1 = Some 1%nat
  /\ PyNum.of_Z 101 <> PyNum.of_Z 0
  /\ PyNum.of_Z 2 <> PyNum.of_Z 1.
Proof.
  repeat split; try (vm_compute; reflexivity); vm_compute; discriminate.
Qed.

(** C7, amended.  For every non-transformer branch row whose two endpoint
    identifiers resolve via the bus index to rows of the bus table, and
    whose numeric fields read as floats, one branch row of 13 fields is
    appended, and its first field is the bus identifier of the from bus:
    column 0 of the bus table at the from-bus row index. *)
Theorem branch_record_from_bus (bus : table) (busmap : busmap_t)
    (brchdata : Csv.row) (branches : table) (l : Log.t) (fbus tbus : nat) :
  resolves busmap brchdata 0 = Some fbus ->
  resolves busmap brchdata 1 = Some tbus ->
  is_some (cell bus fbus 0) = true ->
  is_some (cell bus tbus 1) = true ->
  branch_fields_ok brchdata = true ->
  exists brch,
    branch_record bus busmap brchdata branches l = (inr (branches ++ [brch]), l)
    /\ length brch = 13%nat
    /\ brch !! 0%nat = cell bus fbus 0.
Proof.
  unfold resolves. intros Hf Ht Hcf Hct Hok.
  destruct (brchdata !! 0%nat) as [i |] eqn:Hi; [| discriminate].
  destruct (brchdata !! 1%nat) as [j |] eqn:Hj; [| discriminate].
  apply is_some_Some in Hcf as [vf Hvf].
  apply is_some_Some in Hct as [vt Hvt].
  unfold branch_fields_ok in Hok. cbn [forallb] in Hok.
  repeat (apply andb_true_iff in Hok as [?H Hok]).
  repeat match goal with
         | H : is_some (float_at _ _) = true |- _ =>
             apply is_some_Some in H as [? ?]
         end.
  eexists. unfold branch_record, bind.
  rewrite (item_at _ _ _ _ Hi), (_busidx_found _ _ _ _ Hf).
  rewrite (item_at _ _ _ _ Hj), (_busidx_found _ _ _ _ Ht).
  unfold get, try_some. rewrite Hvf, Hvt. unfold ret at 1 2.
  repeat match goal with
         | H : float_at _ _ = Some _ |- _ =>
             rewrite (float_item_at _ _ _ _ H); clear H
         end.
  unfold ret, r_. repeat split; reflexivity.
Qed.

Lemma branch_record_from_bus_witness :
  exists brch,
    branch_record Inputs.two_buses Inputs.two_buses_map Inputs.branch_101_102
      [] [] = (inr ([] ++ [brch]), [])
    /\ length brch = 13%nat
    /\ brch !! 0%nat = cell Inputs.two_buses 0 0.
Proof.
  apply (branch_record_from_bus Inputs.two_buses Inputs.two_buses_map
           Inputs.branch_101_102 [] [] 0 1); vm_compute; reflexivity.
Defined.

(** ** Cells of a table after an assignment *)

Lemma cell_set_cell_eq (t : table) (i j : nat) (v : float) :
  cell (set_cell t i j v) i j = (fun _ => v) <$> cell t i j.
Proof.
  unfold cell, set_cell. rewrite list_lookup_alter_eq.
  destruct (t !! i) as [r |]; simpl; [| reflexivity].
  destruct (r !! j) as [x |] eqn:Hx; simpl.
  - apply list_lookup_insert_eq. eapply lookup_lt_Some; eauto.
  - apply list_lookup_insert_None. exact Hx.
Qed.

Lemma cell_set_cell_row_ne (t : table) (i j : nat) (v : float) (a b : nat) :
  a <> i -> cell (set_cell t i j v) a b = cell t a b.
Proof.
  intros Hne. unfold cell, set_cell.
  rewrite list_lookup_alter_ne by congruence. reflexivity.
Qed.

Lemma cell_set_cell_col_ne (t : table) (i j : nat) (v : float) (a b : nat) :
  b <> j -> cell (set_cell t i j v) a b = cell t a b.
Proof.
  intros Hne. unfold cell, set_cell.
  destruct (decide (a = i)) as [-> | Hai].
  - rewrite list_lookup_alter_eq.
    destruct (t !! i) as [r |]; simpl; [| reflexivity].
    apply list_lookup_insert_ne. congruence.
  - rewrite list_lookup_alter_ne by congruence. reflexivity.
Qed.

Lemma is_some_cell_set_cell (t : table) (i j : nat) (v : float) (a b : nat) :
  is_some (cell (set_cell t i j v) a b) = is_some (cell t a b).
Proof.
  destruct (decide (a = i)) as [-> | Hai];
    [destruct (decide (b = j)) as [-> | Hbj] |].
  - rewrite cell_set_cell_eq. destruct (cell t i j); reflexivity.
  - rewrite cell_set_cell_col_ne by assumption. reflexivity.
  - rewrite cell_set_cell_row_ne by assumption. reflexivity.
Qed.

Lemma shunt_row_ok_set_cell (t : table) (i j : nat) (v : float)
    (busmap : busmap_t) (r : Csv.row) :
  shunt_row_ok (set_cell t i j v) busmap r = shunt_row_ok t busmap r.
Proof.
  unfold shunt_row_ok. destruct (resolves busmap r 0); [| reflexivity].
  rewrite is_some_cell_set_cell. reflexivity.
Qed.

(** ** The switched-shunt loop *)

Lemma forallb_same {A} (f g : A -> bool) (xs : list A) :
  (forall x, f x = g x) -> forallb f xs = forallb g xs.
Proof.
  intros Hfg. induction xs as [| x xs IH]; [reflexivity |].
  simpl. rewrite Hfg, IH. reflexivity.
Qed.

Lemma shunt_values_cons (busmap : busmap_t) (k : nat) (r : Csv.row)
    (rows : list Csv.row) :
  shunt_values busmap k (r :: rows)
  = shunt_values busmap k [r] ++ shunt_values busmap k rows.
Proof.
  unfold shunt_values. simpl.
  destruct (resolves busmap r 0) as [idx |]; [| reflexivity].
  destruct (Nat.eqb idx k); [| reflexivity].
  destruct (float_at r 7); reflexivity.
Qed.

(** One turn of the loop, at a layout without a status field. *)
Lemma shunt_record_adds (version : Z) (busmap : busmap_t) (r : Csv.row)
    (bus : table) (c : nat) (l : Log.t) :
  version <> 32 ->
  shunt_row_ok bus busmap r = true ->
  exists bus' l',
    shunt_record version busmap r (bus, c) l = (inr (bus', S c), l')
    /\ (forall k, cell bus' k 5
                  = fold_left PyNum.fadd (shunt_values busmap k [r])
                      <$> cell bus k 5)
    /\ (forall k j, j <> 5%nat -> cell bus' k j = cell bus k j)
    /\ (forall r', shunt_row_ok bus' busmap r' = shunt_row_ok bus busmap r').
Proof.
  intros Hv Hok. unfold shunt_row_ok in Hok.
  apply andb_true_iff in Hok as [Hok Hres].
  apply andb_true_iff in Hok as [Hi _].
  apply is_some_Some in Hi as [i Hi].
  assert (Hv32 : Z.eqb version 32 = false) by (apply Z.eqb_neq; exact Hv).
  unfold shunt_record, bind. rewrite Hv32. unfold ret at 1.
  rewrite (item_at _ _ _ _ Hi).
  unfold shunt_values, resolves in *. rewrite Hi in *. simpl omap.
  destruct (busmap !! PyStr.strip_chars "'" i) as [idx |] eqn:Hidx.
  - rewrite (_busidx_found _ _ _ _ Hidx).
    apply andb_true_iff in Hres as [Hc Hf].
    apply is_some_Some in Hc as [old Hold].
    apply is_some_Some in Hf as [bs Hbs].
    rewrite (float_item_at _ _ _ _ Hbs).
    unfold get, try_some. rewrite Hold. unfold ret.
    eexists _, _. split; [reflexivity |]. repeat split.
    + intros k. rewrite Hi, Hidx, Hbs.
      destruct (Nat.eqb_spec idx k) as [<- | Hne].
      * rewrite cell_set_cell_eq, Hold. reflexivity.
      * rewrite cell_set_cell_row_ne by congruence.
        destruct (cell bus k 5); reflexivity.
    + intros k j Hj. apply cell_set_cell_col_ne. exact Hj.
    + intros r'. apply shunt_row_ok_set_cell.
  - rewrite (_busidx_missing _ _ _ Hidx). unfold ret.
    eexists _, _. split; [reflexivity |]. repeat split.
    intros k. rewrite Hi, Hidx. destruct (cell bus k 5); reflexivity.
Qed.

Lemma shunt_loop_adds (version : Z) (busmap : busmap_t) (s : Csv.row)
    (rest : list Csv.row) (e : exn) :
  version <> 32 ->
  is_sentinel s = true ->
  forall (rows : list Csv.row) (bus : table) (c : nat) (l : Log.t),
    forallb (shunt_row_ok bus busmap) rows = true ->
    exists bus' l',
      section_loop (shunt_record version busmap) (bus, c) (rows ++ s :: rest) e l
      = (inr (bus', (c + length rows)%nat), mkPState rest e l')
      /\ (forall k, cell bus' k 5
                    = fold_left PyNum.fadd (shunt_values busmap k rows)
                        <$> cell bus k 5)
      /\ (forall k j, j <> 5%nat -> cell bus' k j = cell bus k j).
Proof.
  intros Hv Hs. induction rows as [| r rows IH]; intros bus c l Hok.
  - destruct s as [| f s']; [discriminate |].
    cbn [app section_loop].
    rewrite (is_data_sentinel (f :: s') f l eq_refl), Hs. cbn [negb length].
    rewrite Nat.add_0_r. eexists _, _. split; [reflexivity |]. split.
    + intros k. destruct (cell bus k 5); reflexivity.
    + reflexivity.
  - simpl in Hok. apply andb_true_iff in Hok as [Hr Hrows].
    destruct (shunt_record_adds version busmap r bus c l Hv Hr)
      as (bus1 & l1 & Hrec & H5 & Hother & Hsame).
    assert (Hrows1 : forallb (shunt_row_ok bus1 busmap) rows = true).
    { rewrite <- Hrows. apply forallb_same. intros r'. apply Hsame. }
    destruct (IH bus1 (S c) l1 Hrows1) as (bus' & l' & Hloop & H5' & Hother').
    exists bus', l'. split; [| split].
    + unfold shunt_row_ok in Hr.
      apply andb_true_iff in Hr as [Hr _].
      apply andb_true_iff in Hr as [Hi Hns].
      apply is_some_Some in Hi as [i Hi].
      cbn [app section_loop].
      rewrite (is_data_sentinel r i l Hi), Hns. cbn [negb].
      rewrite Hrec, Hloop. cbn [length]. do 3 f_equal. lia.
    + intros k.
      rewrite H5', H5, (shunt_values_cons busmap k r rows).
      destruct (cell bus k 5); simpl; [| reflexivity].
      rewrite fold_left_app. reflexivity.
    + intros k j Hj. rewrite Hother', Hother by assumption. reflexivity.
Qed.

(** C9.  At revisions 29 and 30 the switched-shunt parser reads the
    section up to its sentinel and, treating every record as in service,
    adds the BINIT susceptance of each record whose bus identifier
    resolves to the Bs cell (column 5) of that bus's row: the Bs of a bus
    ends as its initial value plus, in file order, the susceptance of every
    record on that bus, and no other cell of the table changes. *)
Theorem switched_shunt_accumulates (version : Z) (bus : table)
    (busmap : busmap_t) (rows : list Csv.row) (s : Csv.row)
    (rest : list Csv.row) (e : exn) (l : Log.t) :
  version = 29 \/ version = 30 ->
  forallb (shunt_row_ok bus busmap) rows = true ->
  is_sentinel s = true ->
  exists bus' l',
    _switched_shunt_data bus version busmap (mkPState (rows ++ s :: rest) e l)
    = (inr bus', mkPState rest e l')
    /\ (forall k, cell bus' k 5
                  = fold_left PyNum.fadd (shunt_values busmap k rows)
                      <$> cell bus k 5)
    /\ (forall k j, j <> 5%nat -> cell bus' k j = cell bus k j).
Proof.
  intros Hv Hok Hs.
  assert (Hv32 : version <> 32) by (destruct Hv; subst; discriminate).
  destruct (shunt_loop_adds version busmap s rest e Hv32 Hs rows bus O l Hok)
    as (bus' & l' & Hloop & H5 & Hother).
  exists bus', (l' ++ [(Log.INFO, Log.ShuntRecords (Z.of_nat (length rows)))]).
  split; [| split; assumption].
  unfold _switched_shunt_data, bind, read_section. simpl.
  rewrite Hloop. reflexivity.
Qed.

Lemma switched_shunt_accumulates_witness :
  exists bus' l',
    _switched_shunt_data Examples.one_bus 30 Examples.one_bus_map
      (mkPState ([Inputs.shunt "1" "10.0"; Inputs.shunt "'BUS1'" "5.5"]
                   ++ Examples.sentinel :: [Examples.sentinel])
         StopIteration [])
    = (inr bus', mkPState [Examples.sentinel] StopIteration l')
    /\ (forall k,
           cell bus' k 5
           = fold_left PyNum.fadd
               (shunt_values Examples.one_bus_map k
                  [Inputs.shunt "1" "10.0"; Inputs.shunt "'BUS1'" "5.5"])
               <$> cell Examples.one_bus k 5)
    /\ (forall k j, j <> 5%nat -> cell bus' k j = cell Examples.one_bus k j).
Proof.
  apply (switched_shunt_accumulates 30 Examples.one_bus Examples.one_bus_map
           [Inputs.shunt "1" "10.0"; Inputs.shunt "'BUS1'" "5.5"]
           Examples.sentinel [Examples.sentinel] StopIteration []).
  - right. reflexivity.
  - vm_compute. reflexivity.
  - vm_compute. reflexivity.
Defined.

(** Two shunt records of 10.0 and 5.5 on one bus leave its Bs at 15.5. *)
Example two_shunts_add_up :
  match fst (_switched_shunt_data Examples.one_bus 30 Examples.one_bus_map
               (Examples.reading [Inputs.shunt "1" "10.0";
                                  Inputs.shunt "'BUS1'" "5.5";
                                  Examples.sentinel])) with
  | inr bus => cell bus 0 5
  | inl _ => None
  end = Some (PyNum.of_decimal false 155 (-1)).
Proof. vm_compute. reflexivity. Qed.

(** ** One turn of the load loop *)

(** A load record whose STATUS field is any non-empty text and whose bus
    resolves assigns its PL and QL to the Pd and Qd cells of the bus,
    whatever they held. *)
Lemma load_record_assigns (busmap : busmap_t) (version : Z) (r : Csv.row)
    (bus : table) (c : nat) (l : Log.t) (status : string) (idx : nat)
    (pl ql : float) :
  version <> 32 ->
  r !! 2%nat = Some status -> PyStr.truthy status = true ->
  resolves busmap r 0 = Some idx ->
  float_at r 5 = Some pl -> float_at r 6 = Some ql ->
  is_some (cell bus idx 2) = true -> is_some (cell bus idx 3) = true ->
  forallb (fun k => is_some (float_at r k)) [7; 8; 9; 10]%nat = true ->
  fst (load_record busmap version r (bus, c) l)
  = inr (set_cell (set_cell bus idx 2 pl) idx 3 ql, S c).
Proof.
  intros Hv Hst Htrue Hres Hpl Hql Hc2 Hc3 Hfl.
  unfold resolves in Hres.
  destruct (r !! 0%nat) as [i |] eqn:Hi; [| discriminate].
  assert (Hv32 : Z.eqb version 32 = false) by (apply Z.eqb_neq; exact Hv).
  apply is_some_Some in Hc2 as [v2 Hv2].
  rewrite <- (is_some_cell_set_cell bus idx 2 pl) in Hc3.
  apply is_some_Some in Hc3 as [v3 Hv3].
  cbn [forallb] in Hfl.
  apply andb_true_iff in Hfl as [H7 Hfl].
  apply andb_true_iff in Hfl as [H8 Hfl].
  apply andb_true_iff in Hfl as [H9 Hfl].
  apply andb_true_iff in Hfl as [H10 _].
  apply is_some_Some in H7 as [Ip H7].
  apply is_some_Some in H8 as [Iq H8].
  apply is_some_Some in H9 as [Yp H9].
  apply is_some_Some in H10 as [Yq H10].
  unfold load_record, bind.
  rewrite (item_at _ _ _ _ Hst), Htrue, (item_at _ _ _ _ Hi).
  rewrite (_busidx_found _ _ _ _ Hres).
  rewrite (float_item_at _ _ _ _ Hpl). unfold put at 1. rewrite Hv2.
  unfold ret at 1.
  rewrite (float_item_at _ _ _ _ Hql). unfold put at 1. rewrite Hv3.
  unfold ret at 1.
  rewrite Hv32. unfold when, Log.warning, ret.
  rewrite (float_item_at r 7 _ _ H7), (float_item_at r 8 _ _ H8).
  destruct (PyNum.ftruthy Ip || PyNum.ftruthy Iq); cbv beta iota;
    rewrite (float_item_at r 9 _ _ H9); cbv beta iota;
    rewrite (float_item_at r 10 _ _ H10); cbv beta iota;
    destruct (PyNum.ftruthy Yp || PyNum.ftruthy Yq); reflexivity.
Qed.

(* ================================================================== *)
(** * Further properties of the converter *)

(** ** Running a computation backwards *)

Lemma bind_inr {S A B} (m : M S A) (k : A -> M S B) (s s' : S) (b : B) :
  bind m k s = (inr b, s') ->
  exists a s1, m s = (inr a, s1) /\ k a s1 = (inr b, s').
Proof.
  unfold bind. destruct (m s) as [[e | a] s1]; [discriminate |]. eauto.
Qed.

Lemma ret_inr {S A} (a b : A) (s s' : S) :
  ret a s = (inr b, s') -> b = a /\ s' = s.
Proof. unfold ret. intros H. injection H as <- <-. auto. Qed.

Lemma item_inr {S} (r : Csv.row) (k : nat) (x : string) (s s' : S) :
  item r k s = (inr x, s') -> r !! k = Some x /\ s' = s.
Proof.
  unfold item, try_some. destruct (r !! k); [| discriminate].
  intros H. injection H as <- <-. auto.
Qed.

Lemma py_int_inr {S} (x : string) (v : Z) (s s' : S) :
  py_int x s = (inr v, s') -> PyNum.int x = Some v /\ s' = s.
Proof.
  unfold py_int, try_some. destruct (PyNum.int x); [| discriminate].
  intros H. injection H as <- <-. auto.
Qed.

Lemma int_cell_inr {S} (z : Z) (v : float) (s s' : S) :
  int_cell z s = (inr v, s') -> s' = s.
Proof.
  unfold int_cell. destruct (PyNum.of_Z z); try discriminate;
    intros H; injection H as <- <-; reflexivity.
Qed.

Lemma float_item_inr {S} (r : Csv.row) (k : nat) (v : float) (s s' : S) :
  float_item r k s = (inr v, s') -> float_at r k = Some v /\ s' = s.
Proof.
  unfold float_item, float_at, bind, item, py_float, try_some.
  destruct (r !! k) as [x |]; [| discriminate]. simpl.
  destruct (PyNum.float_of_string x); [| discriminate].
  intros H. injection H as <- <-. auto.
Qed.

Lemma get_inr {S} (t : table) (i j : nat) (v : float) (s s' : S) :
  get t i j s = (inr v, s') -> cell t i j = Some v /\ s' = s.
Proof.
  unfold get, try_some. destruct (cell t i j); [| discriminate].
  intros H. injection H as <- <-. auto.
Qed.

Lemma put_inr {S} (t t' : table) (i j : nat) (v : float) (s s' : S) :
  put t i j v s = (inr t', s') ->
  is_some (cell t i j) = true /\ t' = set_cell t i j v /\ s' = s.
Proof.
  unfold put. destruct (cell t i j); [| discriminate].
  intros H. injection H as <- <-. auto.
Qed.

Lemma _busidx_inr (i : string) (busmap : busmap_t) (o : option nat)
    (l l' : Log.t) :
  _busidx i busmap l = (inr o, l') ->
  o = busmap !! PyStr.strip_chars "'" i.
Proof.
  unfold _busidx. destruct (busmap !! PyStr.strip_chars "'" i).
  - intros H. injection H as <- _. reflexivity.
  - unfold bind, Log.error, ret. intros H. injection H as <- _. reflexivity.
Qed.

Lemma is_data_inr {S} (r : Csv.row) (b : bool) (s s' : S) :
  is_data r s = (inr b, s') ->
  is_some (r !! 0%nat) = true /\ b = negb (is_sentinel r) /\ s' = s.
Proof.
  destruct r as [| f r']; [discriminate |].
  intros H. injection H as <- <-. auto.
Qed.

(** ** The loop of the section parsers *)

(** An invariant of the loop variables that every turn keeps holds when
    the loop ends. *)
Lemma section_loop_inv {A} (P : A -> Prop) (body : Csv.row -> A -> M Log.t A) :
  (forall r acc l acc' l', P acc -> body r acc l = (inr acc', l') -> P acc') ->
  forall rs acc e l a s',
    P acc -> section_loop body acc rs e l = (inr a, s') -> P a.
Proof.
  intros Hbody. induction rs as [| r rs IH]; intros acc e l a s' HP H.
  - discriminate.
  - cbn [section_loop] in H.
    destruct (is_data r l) as [[x | [|]] l1]; [discriminate | |].
    + destruct (body r acc l1) as [[x | acc1] l2] eqn:Hb; [discriminate |].
      eapply IH; [| exact H]. eapply Hbody; eauto.
    + injection H as <- _. exact HP.
Qed.

(** When the loop ends the cursor is just after the first sentinel. *)
Lemma section_loop_cursor {A} (body : Csv.row -> A -> M Log.t A) :
  forall rs acc e l a s',
    section_loop body acc rs e l = (inr a, s') ->
    rd_rows s' = skip_section rs /\ rd_end s' = e.
Proof.
  induction rs as [| r rs IH]; intros acc e l a s' H.
  - discriminate.
  - cbn [section_loop] in H.
    destruct (is_data r l) as [[x | b] l1] eqn:Hd; [discriminate |].
    apply is_data_inr in Hd as (_ & -> & ->). cbn [skip_section].
    destruct (is_sentinel r); cbn [negb] in H.
    + injection H as _ <-. auto.
    + destruct (body r acc l) as [[x | acc1] l2]; [discriminate |].
      eapply IH; eauto.
Qed.

(** Without a sentinel the loop does not end: it raises. *)
Lemma section_loop_no_sentinel {A} (body : Csv.row -> A -> M Log.t A) :
  forall rs acc e l,
    existsb is_sentinel rs = false ->
    exists x s', section_loop body acc rs e l = (inl x, s').
Proof.
  induction rs as [| r rs IH]; intros acc e l H.
  - simpl. eauto.
  - cbn [existsb] in H. apply orb_false_iff in H as [Hr Hrs].
    cbn [section_loop].
    destruct (is_data r l) as [[x | b] l1] eqn:Hd; [eauto |].
    apply is_data_inr in Hd as (_ & -> & ->). rewrite Hr. cbn [negb].
    destruct (body r acc l) as [[x | acc1] l2]; [eauto |].
    apply IH. exact Hrs.
Qed.

Lemma read_section_inr {A} (body : Csv.row -> A -> M Log.t A) (acc a : A)
    (s s' : PState) :
  read_section body acc s = (inr a, s') ->
  section_loop body acc (rd_rows s) (rd_end s) (log s) = (inr a, s').
Proof. auto. Qed.

Lemma logged_inr {A} (m : M Log.t A) (a : A) (s s' : PState) :
  logged m s = (inr a, s') -> rd_rows s' = rd_rows s /\ rd_end s' = rd_end s.
Proof.
  unfold logged. destruct (m (log s)) as [r l]. intros H.
  injection H as _ <-. auto.
Qed.

Ltac parser_inr H :=
  apply bind_inr in H as (?acc & ?s1 & ?Hloop & H);
  try match type of H with
      | context [let '(_, _) := ?x in _] => destruct x as [? ?]
      end;
  try match type of H with
      | context [let '(_, _) := ?x in _] => destruct x as [? ?]
      end;
  apply bind_inr in H as ([] & ?s2 & ?Hlog & H);
  apply ret_inr in H as [? ?]; subst;
  apply logged_inr in Hlog as [?Hrows ?Hend].

(** X1.  Each section parser that returns has read its section up to and
    including the first sentinel: the cursor is left on the record after
    it, whatever the records of the section were. *)
Theorem section_parsers_stop_after_sentinel :
  (forall version s x s',
      _bus_data version s = (inr x, s') ->
      rd_rows s' = skip_section (rd_rows s))
  /\ (forall bus busmap version s x s',
         _load_data bus busmap version s = (inr x, s') ->
         rd_rows s' = skip_section (rd_rows s))
  /\ (forall busmap s x s',
         _generator_data busmap s = (inr x, s') ->
         rd_rows s' = skip_section (rd_rows s))
  /\ (forall bus busmap s x s',
         _nontransformer_branch_data bus busmap s = (inr x, s') ->
         rd_rows s' = skip_section (rd_rows s))
  /\ (forall bus version busmap s x s',
         _switched_shunt_data bus version busmap s = (inr x, s') ->
         rd_rows s' = skip_section (rd_rows s)).
Proof.
  repeat split; intros;
    match goal with
    | H : _ = (inr _, _) |- _ =>
        parser_inr H; apply read_section_inr, section_loop_cursor in Hloop;
        destruct Hloop as [Hc _]; congruence
    end.
Qed.

Lemma section_parsers_stop_after_sentinel_witness :
  rd_rows (snd (_generator_data Examples.one_bus_map
                  (Examples.reading [Examples.sentinel; Inputs.fixed_shunt])))
  = skip_section [Examples.sentinel; Inputs.fixed_shunt].
Proof.
  apply (proj1 (proj2 (proj2 section_parsers_stop_after_sentinel))
           Examples.one_bus_map
           (Examples.reading [Examples.sentinel; Inputs.fixed_shunt]) []).
  vm_compute. reflexivity.
Defined.

Lemma read_section_no_sentinel {A B} (body : Csv.row -> A -> M Log.t A)
    (acc : A) (k : A -> M PState B) (s : PState) :
  existsb is_sentinel (rd_rows s) = false ->
  exists x s', bind (read_section body acc) k s = (inl x, s').
Proof.
  intros H. unfold bind, read_section.
  destruct (section_loop_no_sentinel body (rd_rows s) acc (rd_end s) (log s) H)
    as (x & s' & ->).
  eauto.
Qed.

(** X2.  A section that has no sentinel before the end of the input is
    fatal for each section parser: it raises (the reader's [StopIteration],
    or the error of an earlier record) and returns no table. *)
Theorem section_parsers_need_sentinel (s : PState) :
  existsb is_sentinel (rd_rows s) = false ->
  (forall version, exists x s', _bus_data version s = (inl x, s'))
  /\ (forall bus busmap version,
         exists x s', _load_data bus busmap version s = (inl x, s'))
  /\ (forall busmap, exists x s', _generator_data busmap s = (inl x, s'))
  /\ (forall bus busmap,
         exists x s', _nontransformer_branch_data bus busmap s = (inl x, s'))
  /\ (forall bus version busmap,
         exists x s', _switched_shunt_data bus version busmap s = (inl x, s')).
Proof.
  intros H. repeat split; intros; apply read_section_no_sentinel; exact H.
Qed.

Lemma section_parsers_need_sentinel_witness :
  exists x s',
    _load_data Examples.one_bus Examples.one_bus_map 30
      (Examples.reading [Inputs.load "1" "1" "10.0" "5.0"]) = (inl x, s').
Proof.
  apply (proj1 (proj2 (section_parsers_need_sentinel
                         (Examples.reading [Inputs.load "1" "1" "10.0" "5.0"])
                         eq_refl))).
Defined.

(** X3.  [_case_identification] takes exactly three records from the
    reader.  With a first record whose first field is the text [0] or [1]
    and whose second field is a float literal it returns that float and
    logs nothing; with another first field it raises [AssertionError]; and
    with fewer than three records left it raises what the reader raises at
    its end, before the first record is looked at. *)
Theorem _case_identification_reads_three (h0 t1 t2 : Csv.row)
    (rest : list Csv.row) (e : exn) (l : Log.t) (f : string) :
  h0 !! 0%nat = Some f ->
  (f = "0" \/ f = "1" ->
   forall v, float_at h0 1 = Some v ->
             _case_identification (mkPState (h0 :: t1 :: t2 :: rest) e l)
             = (inr v, mkPState rest e l))
  /\ (f <> "0" -> f <> "1" ->
      _case_identification (mkPState (h0 :: t1 :: t2 :: rest) e l)
      = (inl AssertionError, mkPState rest e l))
  /\ fst (_case_identification (mkPState [h0; t1] e l)) = inl e
  /\ fst (_case_identification (mkPState [h0] e l)) = inl e
  /\ fst (_case_identification (mkPState [] e l)) = inl e.
Proof.
  intros Hf. repeat split; try reflexivity.
  - intros Hv v Hfl. unfold _case_identification, bind, next. cbn.
    rewrite (item_at _ _ _ _ Hf).
    destruct Hv as [-> | ->]; cbn; apply (float_item_at _ _ _ _ Hfl).
  - intros H0 H1. unfold _case_identification, bind, next. cbn.
    rewrite (item_at _ _ _ _ Hf).
    apply String.eqb_neq in H0, H1. rewrite H0, H1. reflexivity.
Qed.

Lemma _case_identification_reads_three_witness :
  _case_identification
    (mkPState [["0"; "100.0"; "30"]; ["title"]; []; Examples.sentinel]
       StopIteration [])
  = (inr (PyNum.of_Z 100), mkPState [Examples.sentinel] StopIteration []).
Proof.
  apply (proj1 (_case_identification_reads_three ["0"; "100.0"; "30"]
                  ["title"] [] [Examples.sentinel] StopIteration [] "0"
                  eq_refl) (or_introl eq_refl) (PyNum.of_Z 100)).
  vm_compute. reflexivity.
Defined.

(** ** Format detection *)

Lemma split_head_append (sep : ascii) (a b : string) :
  PyStr.contains sep a = false ->
  PyStr.split_head sep (String.append a (String sep b)) = a.
Proof.
  induction a as [| c a IH]; intros H; simpl.
  - rewrite Ascii.eqb_refl. reflexivity.
  - simpl in H. apply orb_false_iff in H as [Hc Ha].
    rewrite Ascii.eqb_sym, Hc, (IH Ha). reflexivity.
Qed.

Lemma split_head_none (sep : ascii) (a : string) :
  PyStr.contains sep a = false -> PyStr.split_head sep a = a.
Proof.
  induction a as [| c a IH]; intros H; simpl; [reflexivity |].
  simpl in H. apply orb_false_iff in H as [Hc Ha].
  rewrite Ascii.eqb_sym, Hc, (IH Ha). reflexivity.
Qed.

(** X4.  Delimiter detection looks at the first line up to its first [/]
    only.  For a first line [a/b] where [a] has no [/], the delimiter is
    the comma when [a] holds a comma and the blank otherwise, whatever the
    comment [b] and the later lines hold; one info record is logged.  The
    same holds for a first line [a] without comment.  On an empty file the
    detection raises [StopIteration]. *)
Theorem _delimiter_ignores_comment (a b : string) (rest : list string)
    (l : Log.t) :
  PyStr.contains "/" a = false ->
  _delimiter (String.append a (String "/" b) :: rest) l
  = (if PyStr.contains "," a
     then (inr ","%char, l ++ [(Log.INFO, Log.FoundComma)])
     else (inr " "%char, l ++ [(Log.INFO, Log.FoundWhitespace)]))
  /\ _delimiter (a :: rest) l
     = (if PyStr.contains "," a
        then (inr ","%char, l ++ [(Log.INFO, Log.FoundComma)])
        else (inr " "%char, l ++ [(Log.INFO, Log.FoundWhitespace)]))
  /\ _delimiter [] l = (inl StopIteration, l).
Proof.
  intros H. unfold _delimiter, bind, try_some. cbn [head hd_error ret].
  rewrite split_head_append, split_head_none by exact H.
  destruct (PyStr.contains "," a); repeat split; reflexivity.
Qed.

Lemma _delimiter_ignores_comment_witness :
  _delimiter ["0   100.0   30 " +:+ String "/" " base, revision"; "x,y"] []
  = (inr " "%char, [(Log.INFO, Log.FoundWhitespace)]).
Proof.
  apply (proj1 (_delimiter_ignores_comment "0   100.0   30 "
                  " base, revision" ["x,y"] [] eq_refl)).
Defined.

(** X5.  Whenever revision detection returns, the revision is one of the
    supported ones, 29, 30, 31 or 32. *)
Theorem _version_is_supported (fd : list string) (sep : ascii) (l l' : Log.t)
    (v : Z) :
  _version fd sep l = (inr v, l') ->
  v = 29 \/ v = 30 \/ v = 31 \/ v = 32.
Proof.
  unfold _version. destruct (Csv.reader fd sep) as [rows e].
  intros H. apply bind_inr in H as (h0 & l1 & _ & H).
  destruct (Nat.ltb (length h0) 3).
  - apply bind_inr in H as (? & ? & _ & H). apply ret_inr in H as [-> _].
    auto.
  - apply bind_inr in H as (h2 & l2 & _ & H).
    apply bind_inr in H as (w & l3 & _ & H).
    apply bind_inr in H as (? & ? & _ & H).
    destruct (Z_in w SUPPORTED_VERSIONS) eqn:Hin; cbn [negb] in H.
    + apply ret_inr in H as [-> _].
      unfold Z_in, SUPPORTED_VERSIONS in Hin. cbn [existsb] in Hin.
      repeat (apply orb_true_iff in Hin as [Hin | Hin]);
        try discriminate; apply Z.eqb_eq in Hin; auto.
    + apply bind_inr in H as (? & ? & _ & H). apply ret_inr in H as [-> _].
      auto.
Qed.

Lemma _version_is_supported_witness :
  30 = 29 \/ 30 = 30 \/ 30 = 31 \/ 30 = 32.
Proof.
  apply (_version_is_supported [Examples.line "0, 100.0, 99"] ","%char []
           [(Log.INFO, Log.VersionFound 99);
            (Log.WARNING, Log.VersionNotSupported 99)] 30).
  vm_compute. reflexivity.
Defined.

(** ** Tables built by the section parsers *)

Ltac inv_prim H :=
  first [ apply item_inr in H as [? ?]
        | apply float_item_inr in H as [? ?]
        | apply py_int_inr in H as [? ?]
        | apply int_cell_inr in H
        | apply get_inr in H as [? ?]
        | apply put_inr in H as (? & ? & ?)
        | apply ret_inr in H as [? ?] ];
  subst.

Ltac steps H :=
  repeat (let H1 := fresh "Hstep" in
          apply bind_inr in H as (? & ? & H1 & H); try inv_prim H1);
  try inv_prim H.

(** The number of records that count grows the measure [f] of the loop
    variables by one each, and the others leave it: when the loop ends,
    [f] has grown by the number of records of the section that count. *)
Lemma section_loop_count {A} (f : A -> nat) (q : Csv.row -> bool)
    (body : Csv.row -> A -> M Log.t A) :
  (forall r acc l acc' l',
      body r acc l = (inr acc', l') ->
      f acc' = (f acc + (if q r then 1 else 0))%nat) ->
  forall rs acc e l a s',
    section_loop body acc rs e l = (inr a, s') ->
    f a = (f acc + length (List.filter q (section_body rs)))%nat.
Proof.
  intros Hbody. induction rs as [| r rs IH]; intros acc e l a s' H.
  - discriminate.
  - cbn [section_loop] in H.
    destruct (is_data r l) as [[x | b] l1] eqn:Hd; [discriminate |].
    apply is_data_inr in Hd as (_ & -> & ->). cbn [section_body].
    destruct (is_sentinel r); cbn [negb] in H.
    + injection H as <- _. simpl. lia.
    + destruct (body r acc l) as [[x | acc1] l2] eqn:Hb; [discriminate |].
      apply IH in H. apply Hbody in Hb. cbn [List.filter].
      destruct (q r); cbn [length]; lia.
Qed.

Lemma bus_record_inr (version : Z) (r : Csv.row) (buses buses' : table)
    (busmap busmap' : busmap_t) (c c' : nat) (l l' : Log.t) :
  bus_record version r (buses, busmap, c) l = (inr (buses', busmap', c'), l') ->
  exists i name bus,
    r !! 0%nat = Some i /\ r !! 1%nat = Some name
    /\ is_some (PyNum.int i) = true
    /\ buses' = buses ++ [bus] /\ bus_row_ok bus
    /\ busmap' = <[PyStr.strip_chars "'" name := c]> (<[i := c]> busmap)
    /\ c' = S c /\ l' = l.
Proof.
  unfold bus_record. intros H. steps H.
  match goal with
  | Hint : PyNum.int _ = Some _ |- _ => rename Hint into Hi
  end.
  match goal with
  | Hif : (if Z_in version [29; 30] then _ else _) _ = _ |- _ =>
      destruct (Z_in version [29; 30]);
      [| destruct (Z_in version [31; 32])]; steps Hif
  end.
  all: apply pair_equal_spec in H as [H ->].
  all: apply pair_equal_spec in H as [-> ->].
  all: eexists _, _, _; repeat split; try eassumption; try reflexivity.
  all: rewrite Hi; reflexivity.
Qed.

(** ** Bus identifiers hold no quote *)













(** ** The tables the parsers return *)

Lemma filter_all {A} (xs : list A) :
  length (List.filter (fun _ => true) xs) = length xs.
Proof. induction xs as [| x xs IH]; simpl; [| rewrite IH]; reflexivity. Qed.

(** X7.  When [_bus_data] returns, the bus table has one row per record of
    the bus section, every row has 13 cells with zero load (Pd, Qd) and
    the voltage limits 1.1 and 0.9, and every index the bus map holds is
    the index of a row of the table. *)
Theorem _bus_data_table (version : Z) (s s' : PState) (buses : table)
    (busmap : busmap_t) :
  _bus_data version s = (inr (buses, busmap), s') ->
  length buses = length (section_body (rd_rows s))
  /\ Forall bus_row_ok buses
  /\ (forall k idx, busmap !! k = Some idx -> (idx < length buses)%nat).
Proof.
  intros H. parser_inr H. apply read_section_inr in Hloop.
  match goal with
  | Heq : (_, _) = (_, _) |- _ =>
      apply pair_equal_spec in Heq as [<- <-]
  end.
  split.
  - apply (section_loop_count (fun acc => length (fst (fst acc)))
             (fun _ => true)) in Hloop.
    + rewrite filter_all in Hloop. exact Hloop.
    + intros r [[b m] c] l [[b' m'] c'] l' Hb.
      apply bus_record_inr in Hb as (? & ? & ? & _ & _ & _ & -> & _).
      cbn [fst]. rewrite length_app. reflexivity.
  - apply (section_loop_inv
             (fun acc => length (fst (fst acc)) = snd acc
                         /\ Forall bus_row_ok (fst (fst acc))
                         /\ (forall k idx, snd (fst acc) !! k = Some idx ->
                                           (idx < snd acc)%nat))) in Hloop.
    + cbn [fst snd] in Hloop. destruct Hloop as (HL & HF & HM).
      split; [exact HF |]. rewrite HL. exact HM.
    + intros r [[b m] c] l [[b' m'] c'] l' (HL & HF & HM) Hb.
      cbn [fst snd] in *.
      apply bus_record_inr in Hb
        as (i & name & bus & _ & _ & _ & -> & Hok & -> & -> & _).
      split; [| split].
      * rewrite length_app, HL. simpl. lia.
      * apply Forall_app. split; [exact HF |].
        apply Forall_cons. split; [exact Hok | apply Forall_nil; exact I].
      * intros k idx Hk.
        apply lookup_insert_Some in Hk as [[_ <-] | [_ Hk]]; [lia |].
        apply lookup_insert_Some in Hk as [[_ <-] | [_ Hk]]; [lia |].
        apply HM in Hk. lia.
    + cbn [fst snd]. split; [reflexivity |].
      split; [apply Forall_nil; exact I |].
      intros k idx Hk. rewrite lookup_empty in Hk. discriminate.
Qed.

Lemma _bus_data_table_witness :
  length Inputs.two_buses
  = length (section_body
              (rd_rows (Examples.reading Inputs.two_buses_section)))
  /\ Forall bus_row_ok Inputs.two_buses
  /\ (forall k idx, Inputs.two_buses_map !! k = Some idx ->
                    (idx < length Inputs.two_buses)%nat).
Proof.
  apply (_bus_data_table 30 (Examples.reading Inputs.two_buses_section)
           (mkPState [] StopIteration [(Log.INFO, Log.BusRecords 2)])).
  vm_compute. reflexivity.
Defined.

(** *** Loads and shunts change one bus table in place *)

Lemma same_outside_refl (cols : list nat) (t : table) : same_outside cols t t.
Proof. repeat split. Qed.

Lemma same_outside_trans (cols : list nat) (t1 t2 t3 : table) :
  same_outside cols t1 t2 -> same_outside cols t2 t3 -> same_outside cols t1 t3.
Proof.
  intros (L1 & S1 & C1) (L2 & S2 & C2). repeat split.
  - congruence.
  - intros k j. rewrite S2. apply S1.
  - intros k j Hj. rewrite C2 by exact Hj. apply C1. exact Hj.
Qed.

Lemma same_outside_set_cell (cols : list nat) (t : table) (i j : nat)
    (v : float) :
  j ∈ cols -> same_outside cols t (set_cell t i j v).
Proof.
  intros Hj. repeat split.
  - unfold set_cell. apply length_alter.
  - intros k j'. apply is_some_cell_set_cell.
  - intros k j' Hj'. apply cell_set_cell_col_ne. intros ->. exact (Hj' Hj).
Qed.

Lemma load_record_inr (busmap : busmap_t) (version : Z) (r : Csv.row)
    (bus bus' : table) (c c' : nat) (l l' : Log.t) :
  load_record busmap version r (bus, c) l = (inr (bus', c'), l') ->
  same_outside [2; 3]%nat bus bus'.
Proof.
  unfold load_record. intros H. steps H.
  apply pair_equal_spec in H as [<- _].
  match goal with
  | Hm : (match PyStr.truthy ?x with _ => _ end) _ = _ |- _ =>
      destruct (PyStr.truthy x);
      [match type of Hm with
       | context [match ?o with Some _ => _ | None => _ end] => destruct o
       end |];
      steps Hm
  end.
  - eapply same_outside_trans; apply same_outside_set_cell; set_solver.
  - apply same_outside_refl.
  - apply same_outside_refl.
Qed.

(** X8.  The load parser changes nothing of the bus table but the load
    cells.  When [_load_data] returns, the table has the rows and cells it
    had, and every cell outside the columns Pd and Qd (2 and 3) holds the
    value it held. *)
Theorem _load_data_touches_load_only (bus bus' : table) (busmap : busmap_t)
    (version : Z) (s s' : PState) :
  _load_data bus busmap version s = (inr bus', s') ->
  same_outside [2; 3]%nat bus bus'.
Proof.
  intros H. parser_inr H. apply read_section_inr in Hloop.
  apply (section_loop_inv (fun acc => same_outside [2; 3]%nat bus (fst acc)))
    in Hloop.
  - exact Hloop.
  - intros ? [b c] ? [b' c'] ? Hsame Hb. cbn [fst] in *.
    eapply same_outside_trans; [exact Hsame |].
    eapply load_record_inr; exact Hb.
  - apply same_outside_refl.
Qed.

Lemma shunt_record_inr (version : Z) (busmap : busmap_t) (r : Csv.row)
    (bus bus' : table) (c c' : nat) (l l' : Log.t) :
  shunt_record version busmap r (bus, c) l = (inr (bus', c'), l') ->
  same_outside [5]%nat bus bus'.
Proof.
  unfold shunt_record. intros H. steps H.
  apply pair_equal_spec in H as [<- _].
  match goal with
  | Hm : (match ?b with true => _ | false => _ end) _ = (inr _, _),
    Hs : _ = (inr ?b, _) |- _ =>
      destruct b;
      [match type of Hm with
       | context [match ?o with Some _ => _ | None => _ end] => destruct o
       end |];
      steps Hm
  end.
  - apply same_outside_set_cell. set_solver.
  - apply same_outside_refl.
  - apply same_outside_refl.
Qed.

(** X9.  The switched-shunt parser, at every revision, changes nothing of
    the bus table but the susceptance cells.  When [_switched_shunt_data]
    returns, the table has the rows and cells it had, and every cell
    outside the column Bs (5) holds the value it held. *)
Theorem _switched_shunt_data_touches_Bs_only (bus bus' : table) (version : Z)
    (busmap : busmap_t) (s s' : PState) :
  _switched_shunt_data bus version busmap s = (inr bus', s') ->
  same_outside [5]%nat bus bus'.
Proof.
  intros H. parser_inr H. apply read_section_inr in Hloop.
  apply (section_loop_inv (fun acc => same_outside [5]%nat bus (fst acc)))
    in Hloop.
  - exact Hloop.
  - intros ? [b c] ? [b' c'] ? Hsame Hb. cbn [fst] in *.
    eapply same_outside_trans; [exact Hsame |].
    eapply shunt_record_inr; exact Hb.
  - apply same_outside_refl.
Qed.

Lemma _load_data_touches_load_only_witness :
  same_outside [2; 3]%nat Examples.one_bus
    [[PyNum.of_Z 1; PyNum.of_Z 1; PyNum.of_Z 10; PyNum.of_Z 5; PyNum.zero;
      PyNum.zero; PyNum.of_Z 1; PyNum.of_Z 1; PyNum.zero; PyNum.of_Z 138;
      PyNum.of_Z 1; PyNum.of_decimal false 11 (-1);
      PyNum.of_decimal false 9 (-1)]].
Proof.
  apply (_load_data_touches_load_only Examples.one_bus _ Examples.one_bus_map
           30 (Examples.reading [Inputs.load "1" "1" "10.0" "5.0";
                                 Examples.sentinel])
           (mkPState [] StopIteration [(Log.INFO, Log.LoadRecords 1)])).
  vm_compute. reflexivity.
Defined.

Lemma _switched_shunt_data_touches_Bs_only_witness :
  same_outside [5]%nat Examples.one_bus
    [[PyNum.of_Z 1; PyNum.of_Z 1; PyNum.zero; PyNum.zero; PyNum.zero;
      PyNum.of_Z 10; PyNum.of_Z 1; PyNum.of_Z 1; PyNum.zero; PyNum.of_Z 138;
      PyNum.of_Z 1; PyNum.of_decimal false 11 (-1);
      PyNum.of_decimal false 9 (-1)]].
Proof.
  apply (_switched_shunt_data_touches_Bs_only Examples.one_bus _ 30
           Examples.one_bus_map
           (Examples.reading [Inputs.shunt "1" "10.0"; Examples.sentinel])
           (mkPState [] StopIteration [(Log.INFO, Log.ShuntRecords 1)])).
  vm_compute. reflexivity.
Defined.

(** *** Generators and branches *)

Lemma resolves_busidx (busmap : busmap_t) (r : Csv.row) (k : nat)
    (i : string) (o : option nat) (l l' : Log.t) :
  r !! k = Some i -> _busidx i busmap l = (inr o, l') ->
  resolves busmap r k = o.
Proof.
  intros Hi H. apply _busidx_inr in H. unfold resolves. rewrite Hi.
  symmetry. exact H.
Qed.

Lemma generator_record_inr (busmap : busmap_t) (r : Csv.row)
    (gens gens' : table) (l l' : Log.t) :
  generator_record busmap r gens l = (inr gens', l') ->
  (resolves busmap r 0 = None /\ gens' = gens)
  \/ (is_some (resolves busmap r 0) = true
      /\ exists g, gens' = gens ++ [g] /\ gen_row_ok g).
Proof.
  unfold generator_record. intros H. steps H.
  match goal with
  | Hi : r !! 0%nat = Some _, Hb : _busidx _ _ _ = _ |- _ =>
      rewrite (resolves_busidx _ _ _ _ _ _ _ Hi Hb)
  end.
  match type of H with
  | context [match ?o with Some _ => _ | None => _ end] => destruct o
  end; steps H.
  - right. split; [reflexivity |]. eexists. split; [reflexivity |].
    unfold gen_row_ok. do 9 eexists. reflexivity.
  - left. auto.
Qed.

(** X10.  When [_generator_data] returns, the generator table has one row
    for each record of the section whose bus identifier resolves and none
    for the others; every row has 21 cells, of which the bus cell
    (column 0) and the eleven cells after Pmin are zero. *)
Theorem _generator_data_table (busmap : busmap_t) (s s' : PState)
    (gens : table) :
  _generator_data busmap s = (inr gens, s') ->
  Forall gen_row_ok gens
  /\ length gens
     = length (List.filter (fun r => is_some (resolves busmap r 0))
                 (section_body (rd_rows s))).
Proof.
  intros H. parser_inr H. apply read_section_inr in Hloop. split.
  - apply (section_loop_inv (Forall gen_row_ok)) in Hloop.
    + exact Hloop.
    + intros ? g0 ? g1 ? HF Hb.
      apply generator_record_inr in Hb as [[_ ->] | [_ (g & -> & Hg)]].
      * exact HF.
      * apply Forall_app. split; [exact HF |].
        apply Forall_cons. split; [exact Hg | apply Forall_nil; exact I].
    + apply Forall_nil. exact I.
  - apply (section_loop_count (fun acc : table => length acc)
             (fun r => is_some (resolves busmap r 0))) in Hloop.
    + exact Hloop.
    + intros ? g0 ? g1 ? Hb.
      apply generator_record_inr in Hb as [[-> ->] | [-> (g & -> & _)]].
      * cbn [is_some]. lia.
      * rewrite length_app. reflexivity.
Qed.

Lemma _generator_data_table_witness :
  Forall gen_row_ok [MoreInputs.generator_row]
  /\ length [MoreInputs.generator_row]
     = length (List.filter
                 (fun r => is_some (resolves Examples.one_bus_map r 0))
                 (section_body
                    (rd_rows (Examples.reading
                                [MoreInputs.generator "9";
                                 MoreInputs.generator "'BUS1'";
                                 Examples.sentinel])))).
Proof.
  apply (_generator_data_table Examples.one_bus_map
           (Examples.reading [MoreInputs.generator "9";
                              MoreInputs.generator "'BUS1'";
                              Examples.sentinel])
           (mkPState [] StopIteration
              [(Log.ERROR, Log.BusNotFound "9");
               (Log.INFO, Log.GeneratorRecords 1)])).
  vm_compute. reflexivity.
Defined.

Lemma branch_record_inr (bus : table) (busmap : busmap_t) (r : Csv.row)
    (branches branches' : table) (l l' : Log.t) :
  branch_record bus busmap r branches l = (inr branches', l') ->
  (both_resolve busmap r = false /\ branches' = branches)
  \/ (both_resolve busmap r = true
      /\ exists b, branches' = branches ++ [b] /\ branch_row_ok b).
Proof.
  unfold branch_record, both_resolve. intros H. steps H.
  repeat match goal with
         | Hi : r !! ?k = Some ?i, Hb : _busidx ?i _ _ = _ |- _ =>
             apply (resolves_busidx _ _ _ _ _ _ _ Hi) in Hb; rewrite Hb
         end.
  repeat match type of H with
         | context [match ?o with Some _ => _ | None => _ end] => destruct o
         end; steps H; cbn [is_some andb]; auto.
  right. split; [reflexivity |]. eexists. split; [reflexivity |].
  unfold branch_row_ok. do 9 eexists. reflexivity.
Qed.

(** X11.  When [_nontransformer_branch_data] returns, the branch table has
    one row for each record of the section whose two bus identifiers
    resolve and none for the others; every row has 13 cells, with tap
    ratio and shift angle (columns 8 and 9) zero and the angle limits
    -360 and 360. *)
Theorem _nontransformer_branch_data_table (bus : table) (busmap : busmap_t)
    (s s' : PState) (branches : table) :
  _nontransformer_branch_data bus busmap s = (inr branches, s') ->
  Forall branch_row_ok branches
  /\ length branches
     = length (List.filter (both_resolve busmap) (section_body (rd_rows s))).
Proof.
  intros H. parser_inr H. apply read_section_inr in Hloop. split.
  - apply (section_loop_inv (Forall branch_row_ok)) in Hloop.
    + exact Hloop.
    + intros ? b0 ? b1 ? HF Hb.
      apply branch_record_inr in Hb as [[_ ->] | [_ (b & -> & Hok)]].
      * exact HF.
      * apply Forall_app. split; [exact HF |].
        apply Forall_cons. split; [exact Hok | apply Forall_nil; exact I].
    + apply Forall_nil. exact I.
  - apply (section_loop_count (fun acc : table => length acc)
             (both_resolve busmap)) in Hloop.
    + exact Hloop.
    + intros ? b0 ? b1 ? Hb.
      apply branch_record_inr in Hb as [[-> ->] | [-> (b & -> & _)]].
      * lia.
      * rewrite length_app. reflexivity.
Qed.

Lemma _nontransformer_branch_data_table_witness :
  Forall branch_row_ok [MoreInputs.branch_row]
  /\ length [MoreInputs.branch_row]
     = length (List.filter (both_resolve Inputs.two_buses_map)
                 (section_body
                    (rd_rows (Examples.reading
                                [Inputs.branch_101_102;
                                 MoreInputs.branch_101_999;
                                 Examples.sentinel])))).
Proof.
  apply (_nontransformer_branch_data_table Inputs.two_buses
           Inputs.two_buses_map
           (Examples.reading [Inputs.branch_101_102; MoreInputs.branch_101_999;
                              Examples.sentinel])
           (mkPState [] StopIteration
              [(Log.ERROR, Log.BusNotFound "999");
               (Log.INFO, Log.BranchRecords 1)])).
  vm_compute. reflexivity.
Defined.

(** ** The top-level converter *)



(** ** A file with empty sections *)

Lemma read_section_sentinel {A} (body : Csv.row -> A -> M Log.t A) (acc : A)
    (r : Csv.row) (rest : list Csv.row) (e : exn) (l : Log.t) :
  is_sentinel r = true ->
  read_section body acc (mkPState (r :: rest) e l)
  = (inr acc, mkPState rest e l).
Proof.
  intros H. unfold read_section. cbn [rd_rows rd_end log section_loop].
  destruct r as [| f r']; [discriminate |].
  rewrite (is_data_sentinel (f :: r') f l eq_refl), H. reflexivity.
Qed.

(** X13.  The sections compose on a case without records.  After a header
    whose first field is [0] or [1] and whose base is a float, two title
    lines and four sentinels, the sections up to the two-terminal DC
    lines return that base and empty bus, generator and branch tables, at
    whatever revision, leave the cursor after the fourth sentinel and log
    the four record counts, all zero. *)
Theorem sections_on_empty_case (rev : Z) (h0 t1 t2 s1 s2 s3 s4 : Csv.row)
    (rest : list Csv.row) (e : exn) (l : Log.t) (f : string) (v : float) :
  h0 !! 0%nat = Some f -> f = "0" \/ f = "1" -> float_at h0 1 = Some v ->
  is_sentinel s1 = true -> is_sentinel s2 = true ->
  is_sentinel s3 = true -> is_sentinel s4 = true ->
  sections_before_vsc rev
    (mkPState (h0 :: t1 :: t2 :: s1 :: s2 :: s3 :: s4 :: rest) e l)
  = (inr (v, [], [], []),
     mkPState rest e
       (l ++ [(Log.INFO, Log.BusRecords 0)] ++ [(Log.INFO, Log.LoadRecords 0)]
          ++ [(Log.INFO, Log.GeneratorRecords 0)]
          ++ [(Log.INFO, Log.BranchRecords 0)])).
Proof.
  intros Hf Hv Hfl H1 H2 H3 H4.
  unfold sections_before_vsc, bind.
  assert (Hid : _case_identification
                  (mkPState (h0 :: t1 :: t2 :: s1 :: s2 :: s3 :: s4 :: rest) e l)
                = (inr v, mkPState (s1 :: s2 :: s3 :: s4 :: rest) e l)).
  { unfold _case_identification, bind, next. cbn.
    rewrite (item_at _ _ _ _ Hf).
    destruct Hv as [-> | ->]; cbn; apply (float_item_at _ _ _ _ Hfl). }
  rewrite Hid.
  unfold _bus_data, bind. rewrite (read_section_sentinel _ _ _ _ _ _ H1).
  unfold logged at 1, Log.info, ret at 1. cbn [log rd_rows rd_end].
  unfold ret at 1.
  unfold _load_data, bind. rewrite (read_section_sentinel _ _ _ _ _ _ H2).
  unfold logged at 1, Log.info. cbn [log rd_rows rd_end].
  unfold ret at 1.
  assert (Hfs : forall st : PState,
             when (Z_in rev [31; 32]) (call _fixed_shunt_data 1) st
             = (inr tt, st)).
  { intros st. destruct (Z_in rev [31; 32]); reflexivity. }
  rewrite Hfs.
  unfold _generator_data, bind. rewrite (read_section_sentinel _ _ _ _ _ _ H3).
  unfold logged at 1, Log.info. cbn [log rd_rows rd_end length].
  unfold ret at 1.
  unfold _nontransformer_branch_data, bind.
  rewrite (read_section_sentinel _ _ _ _ _ _ H4).
  unfold logged, Log.info. cbn [log rd_rows rd_end length].
  unfold ret, call. cbn.
  rewrite <- !app_assoc. reflexivity.
Qed.

Lemma sections_on_empty_case_witness :
  sections_before_vsc 32
    (mkPState (MoreInputs.minimal "100.0" ++ [Inputs.fixed_shunt])
       StopIteration [])
  = (inr (PyNum.of_Z 100, [], [], []),
     mkPState [Inputs.fixed_shunt] StopIteration
       ([] ++ [(Log.INFO, Log.BusRecords 0)] ++ [(Log.INFO, Log.LoadRecords 0)]
          ++ [(Log.INFO, Log.GeneratorRecords 0)]
          ++ [(Log.INFO, Log.BranchRecords 0)])).
Proof.
  apply (sections_on_empty_case 32 ["0"; "100.0"; "30"] ["title"] []
           Examples.sentinel Examples.sentinel Examples.sentinel
           Examples.sentinel [Inputs.fixed_shunt] StopIteration [] "0"
           (PyNum.of_Z 100) eq_refl (or_introl eq_refl)).
  - vm_compute. reflexivity.
  - reflexivity.
  - reflexivity.
  - reflexivity.
  - reflexivity.
Defined.

(** ** Bus records across revisions *)

(** X14.  The two bus layouts agree.  A bus record of revisions 29 and 30
    with zero shunt fields GL and BL gives the same result as the record
    of revisions 31 and 32 that carries the same identifier, name, base
    voltage, type, area, zone, owner, voltage magnitude and angle at its
    own offsets: the same row and bus map entries, or the same
    exception. *)
Theorem bus_layouts_agree (i name baskv ide area zone owner vm va : string)
    (acc : table * busmap_t * nat) (l : Log.t) :
  (forall v, v = 29 \/ v = 30 -> forall w, w = 31 \/ w = 32 ->
     bus_record v [i; name; baskv; ide; "0.0"; "0.0"; area; zone; vm; va; owner]
       acc l
     = bus_record w [i; name; baskv; ide; area; zone; owner; vm; va] acc l).
Proof.
  intros v Hv w Hw. destruct acc as [[buses busmap] c].
  assert (Hv1 : Z_in v [29; 30] = true) by (destruct Hv; subst; reflexivity).
  assert (Hw1 : Z_in w [29; 30] = false) by (destruct Hw; subst; reflexivity).
  assert (Hw2 : Z_in w [31; 32] = true) by (destruct Hw; subst; reflexivity).
  unfold bus_record. rewrite Hv1, Hw1, Hw2.
  unfold bind, float_item, item, try_some, bind, ret. cbn [lookup list_lookup].
  destruct (py_int i l) as [[? | n] l1]; [reflexivity |].
  destruct (int_cell n l1) as [[? | x0] l2]; [reflexivity |].
  destruct (py_float ide l2) as [[? | x1] l3]; [reflexivity |].
  do 2 (change (py_float "0.0" l3) with (@inr exn float PyNum.zero, l3);
        cbv beta iota).
  destruct (py_int area l3) as [[? | a] l4]; [reflexivity |].
  destruct (int_cell a l4) as [[? | x6] l5]; [reflexivity |].
  destruct (py_float vm l5) as [[? | x7] l6]; [reflexivity |].
  destruct (py_float va l6) as [[? | x8] l7]; [reflexivity |].
  destruct (py_float zone l7) as [[? | x10] l8]; [reflexivity |].
  destruct (py_float baskv l8) as [[? | x9] l9]; reflexivity.
Qed.

Lemma bus_layouts_agree_witness :
  bus_record 30
    ["1"; "'BUS1'"; "138.0"; "1"; "0.0"; "0.0"; "2"; "3"; "1.05"; "-4.5"; "1"]
    ([], ∅, O) []
  = bus_record 32 ["1"; "'BUS1'"; "138.0"; "1"; "2"; "3"; "1"; "1.05"; "-4.5"]
      ([], ∅, O) [].
Proof.
  apply (bus_layouts_agree "1" "'BUS1'" "138.0" "1" "2" "3" "1" "1.05" "-4.5"
           ([], ∅, O) [] 30 (or_intror eq_refl) 32 (or_intror eq_refl)).
Defined.

Lemma int_cell_finite {S} (n : Z) (s : S) :
  finite (PyNum.of_Z n) = true -> int_cell n s = (inr (PyNum.of_Z n), s).
Proof.
  unfold int_cell. destruct (PyNum.of_Z n); try discriminate; reflexivity.
Qed.

(** X15.  A revision given to the parser is not checked.  At a revision
    that is none of 29, 30, 31, 32 the bus parser still accepts a record
    with a numeric identifier, a name, a base voltage and a type: it
    appends a row that holds only these and the fixed voltage limits, the
    shunt, area, voltage and zone cells staying zero, and registers the
    bus; nothing is logged. *)
Theorem bus_record_unsupported_revision (version : Z) (r : Csv.row)
    (buses : table) (busmap : busmap_t) (c : nat) (l : Log.t)
    (i name : string) (n : Z) (kv ide : float) :
  Z_in version SUPPORTED_VERSIONS = false ->
  r !! 0%nat = Some i -> r !! 1%nat = Some name ->
  PyNum.int i = Some n -> finite (PyNum.of_Z n) = true ->
  float_at r 3 = Some ide -> float_at r 2 = Some kv ->
  bus_record version r (buses, busmap, c) l
  = (inr (buses ++ [[PyNum.of_Z n; ide; PyNum.zero; PyNum.zero; PyNum.zero;
                     PyNum.zero; PyNum.zero; PyNum.zero; PyNum.zero; kv;
                     PyNum.zero; PyNum.of_decimal false 11 (-1);
                     PyNum.of_decimal false 9 (-1)]],
          <[PyStr.strip_chars "'" name := c]> (<[i := c]> busmap), S c), l).
Proof.
  intros Hv Hi Hn Hint Hfin Hide Hkv.
  unfold Z_in, SUPPORTED_VERSIONS in Hv. cbn [existsb] in Hv.
  repeat (apply orb_false_iff in Hv as [?Hv Hv]).
  unfold bus_record, bind, Z_in. cbn [existsb].
  rewrite (item_at _ _ _ _ Hi), (item_at _ _ _ _ Hn).
  unfold py_int, try_some. rewrite Hint. unfold ret at 1.
  rewrite (int_cell_finite _ _ Hfin), (float_item_at _ _ _ _ Hide).
  rewrite Hv0, Hv1, Hv2, Hv3. cbn [orb]. unfold ret at 1.
  rewrite (float_item_at _ _ _ _ Hkv). reflexivity.
Qed.

Lemma bus_record_unsupported_revision_witness :
  bus_record 33
    ["5"; "'EAST'"; "230.0"; "2"; "0.5"; "1.5"; "4"; "6"; "1.01"; "3.0"; "1"]
    ([], ∅, O) []
  = (inr ([] ++ [[PyNum.of_Z 5; PyNum.of_Z 2; PyNum.zero; PyNum.zero;
                  PyNum.zero; PyNum.zero; PyNum.zero; PyNum.zero; PyNum.zero;
                  PyNum.of_Z 230; PyNum.zero; PyNum.of_decimal false 11 (-1);
                  PyNum.of_decimal false 9 (-1)]],
          <[PyStr.strip_chars "'" "'EAST'" := O]> (<["5" := O]> ∅), 1%nat), []).
Proof.
  apply (bus_record_unsupported_revision 33
           ["5"; "'EAST'"; "230.0"; "2"; "0.5"; "1.5"; "4"; "6"; "1.01"; "3.0";
            "1"] [] ∅ O [] "5" "'EAST'" 5 (PyNum.of_Z 230) (PyNum.of_Z 2));
    vm_compute; reflexivity.
Defined.

(** ** Records that name no bus *)

Lemma generator_record_unresolved (busmap : busmap_t) (r : Csv.row)
    (gens : table) (l : Log.t) :
  unresolved busmap r = true ->
  generator_record busmap r gens l = (inr gens, l ++ [not_found r]).
Proof.
  unfold unresolved, resolves, not_found. intros H.
  apply andb_true_iff in H as [H Hres].
  apply andb_true_iff in H as [Hi _].
  apply is_some_Some in Hi as [i Hi]. rewrite Hi in *. cbn [default].
  destruct (busmap !! PyStr.strip_chars "'" i) eqn:Hm; [discriminate |].
  unfold generator_record, bind.
  rewrite (item_at _ _ _ _ Hi), (_busidx_missing _ _ _ Hm). reflexivity.
Qed.

(** X16.  Generator records that name no known bus do not stop the parse.
    On a section in which no record resolves, [_generator_data] reads up
    to the sentinel, returns the empty table, and logs one bus-not-found
    error per record, in file order, before the record count 0. *)
Theorem _generator_data_drops_unresolved (busmap : busmap_t)
    (rows : list Csv.row) (s : Csv.row) (rest : list Csv.row) (e : exn)
    (l : Log.t) :
  forallb (unresolved busmap) rows = true ->
  is_sentinel s = true ->
  _generator_data busmap (mkPState (rows ++ s :: rest) e l)
  = (inr [],
     mkPState rest e
       ((l ++ map not_found rows) ++ [(Log.INFO, Log.GeneratorRecords 0)])).
Proof.
  intros Hrows Hs.
  assert (Hloop : forall rows l,
             forallb (unresolved busmap) rows = true ->
             section_loop (generator_record busmap) [] (rows ++ s :: rest) e l
             = (inr [], mkPState rest e (l ++ map not_found rows))).
  { clear rows l Hrows. induction rows as [| r rows IH]; intros l Hrows.
    - cbn [app section_loop map]. destruct s as [| f s']; [discriminate |].
      rewrite (is_data_sentinel (f :: s') f l eq_refl), Hs, app_nil_r.
      reflexivity.
    - cbn [forallb] in Hrows. apply andb_true_iff in Hrows as [Hr Hrows].
      cbn [app section_loop map].
      pose proof Hr as Hr'. unfold unresolved in Hr'.
      apply andb_true_iff in Hr' as [Hr' _].
      apply andb_true_iff in Hr' as [Hi Hns].
      apply is_some_Some in Hi as [i Hi]. apply negb_true_iff in Hns.
      rewrite (is_data_sentinel r i l Hi), Hns. cbn [negb].
      rewrite (generator_record_unresolved _ _ _ _ Hr).
      rewrite (IH _ Hrows), <- app_assoc. reflexivity. }
  unfold _generator_data, bind, read_section. cbn [rd_rows rd_end log].
  rewrite (Hloop rows l Hrows). reflexivity.
Qed.

Lemma _generator_data_drops_unresolved_witness :
  _generator_data Examples.one_bus_map
    (mkPState ([MoreInputs.generator "9"; ["'WEST'"]]
                 ++ Examples.sentinel :: [Examples.sentinel])
       StopIteration [])
  = (inr [],
     mkPState [Examples.sentinel] StopIteration
       (([] ++ map not_found [MoreInputs.generator "9"; ["'WEST'"]])
          ++ [(Log.INFO, Log.GeneratorRecords 0)])).
Proof.
  apply (_generator_data_drops_unresolved Examples.one_bus_map
           [MoreInputs.generator "9"; ["'WEST'"]] Examples.sentinel
           [Examples.sentinel] StopIteration []);
    vm_compute; reflexivity.
Defined.

(** ** The record counts that are logged *)

Lemma load_record_count (busmap : busmap_t) (version : Z) (r : Csv.row)
    (bus bus' : table) (c c' : nat) (l l' : Log.t) :
  load_record busmap version r (bus, c) l = (inr (bus', c'), l') -> c' = S c.
Proof.
  unfold load_record. intros H. steps H.
  apply pair_equal_spec in H as [_ ->]. reflexivity.
Qed.

Lemma shunt_record_count (version : Z) (busmap : busmap_t) (r : Csv.row)
    (bus bus' : table) (c c' : nat) (l l' : Log.t) :
  shunt_record version busmap r (bus, c) l = (inr (bus', c'), l') -> c' = S c.
Proof.
  unfold shunt_record. intros H. steps H.
  apply pair_equal_spec in H as [_ ->]. reflexivity.
Qed.

Lemma counted_section {A} (body : Csv.row -> A * nat -> M Log.t (A * nat))
    (msg : Z -> Log.message) (a0 a : A) (s s' : PState) :
  (forall r acc l acc' l',
      body r acc l = (inr acc', l') -> snd acc' = S (snd acc)) ->
  (let! '(x, c) := read_section body (a0, O) in
   do! logged (Log.info (msg (Z.of_nat c))) in
   ret x) s = (inr a, s') ->
  exists l1,
    log s' = l1 ++ [(Log.INFO,
                     msg (Z.of_nat (length (section_body (rd_rows s)))))].
Proof.
  intros Hbody H.
  apply bind_inr in H as ([x c] & s1 & Hloop & H).
  apply bind_inr in H as ([] & s2 & Hlog & H).
  apply ret_inr in H as [_ ->].
  apply read_section_inr in Hloop.
  apply (section_loop_count snd (fun _ => true)) in Hloop.
  - cbn [snd] in Hloop. rewrite filter_all in Hloop. subst c.
    unfold logged, Log.info in Hlog. injection Hlog as <-.
    cbn [log]. eauto.
  - intros r acc l acc' l' Hb. rewrite (Hbody _ _ _ _ _ Hb). lia.
Qed.

(** X17.  The record counts of the load and switched-shunt parsers count
    every record of the section, whether it contributed to a bus or was
    skipped: when either parser returns, the last log record is its info
    record with the number of records before the sentinel. *)
Theorem record_counts_count_every_record :
  (forall bus busmap version s bus' s',
      _load_data bus busmap version s = (inr bus', s') ->
      exists l1,
        log s' = l1 ++ [(Log.INFO,
                         Log.LoadRecords
                           (Z.of_nat (length (section_body (rd_rows s)))))])
  /\ (forall bus version busmap s bus' s',
         _switched_shunt_data bus version busmap s = (inr bus', s') ->
         exists l1,
           log s' = l1 ++ [(Log.INFO,
                            Log.ShuntRecords
                              (Z.of_nat (length (section_body (rd_rows s)))))]).
Proof.
  split; intros.
  - eapply (counted_section (load_record busmap version) Log.LoadRecords);
      [| eassumption].
    intros r [b c] l [b' c'] l' Hb. cbn [snd].
    eapply load_record_count; exact Hb.
  - eapply (counted_section (shunt_record version busmap) Log.ShuntRecords);
      [| eassumption].
    intros r [b c] l [b' c'] l' Hb. cbn [snd].
    eapply shunt_record_count; exact Hb.
Qed.

Lemma record_counts_count_every_record_witness :
  exists l1,
    log (mkPState [] StopIteration
           [(Log.ERROR, Log.BusNotFound "9"); (Log.INFO, Log.LoadRecords 2)])
    = l1 ++ [(Log.INFO,
              Log.LoadRecords
                (Z.of_nat
                   (length
                      (section_body
                         (rd_rows
                            (Examples.reading
                               [Inputs.load "9" "1" "10.0" "5.0";
                                Inputs.load "1" "" "3.0" "1.0";
                                Examples.sentinel]))))))].
Proof.
  apply (proj1 record_counts_count_every_record Examples.one_bus
           Examples.one_bus_map 30
           (Examples.reading [Inputs.load "9" "1" "10.0" "5.0";
                              Inputs.load "1" "" "3.0" "1.0";
                              Examples.sentinel])
           Examples.one_bus).
  vm_compute. reflexivity.
Defined.

(** ** Revision detection that fails *)

(** C10.  Revision detection does fail.  Whenever the first header record
    has three or more fields and its third field, with any trailing
    /-comment stripped, does not read as an integer, [_version] raises
    [ValueError] from the unguarded [int], logs nothing and falls back to
    no revision, where its docstring and the claim promise the default
    revision 30; on the header [0, 100.0, abc] in particular.  On an empty
    stream it raises [StopIteration]. *)
Theorem _version_raises_on_non_integer (fd : list string) (sep : ascii)
    (l : Log.t) (h0 : Csv.row) (rest : list Csv.row) (e : exn) (h2 : string) :
  Csv.reader fd sep = (h0 :: rest, e) ->
  h0 !! 2%nat = Some h2 ->
  PyNum.int (revision_text h2) = None ->
  _version fd sep l = (inl ValueError, l)
  /\ _version [Examples.line "0, 100.0, abc"] ","%char l = (inl ValueError, l)
  /\ _version [] sep l = (inl StopIteration, l).
Proof.
  intros Hrd Hh2 Hint. split; [| split; reflexivity].
  unfold _version. rewrite Hrd.
  unfold bind, try_some, ret. cbn [head hd_error].
  assert (Hlen : Nat.ltb (length h0) 3 = false).
  { apply Nat.ltb_ge. apply lookup_lt_Some in Hh2. lia. }
  rewrite Hlen. unfold item, try_some, ret. rewrite Hh2.
  unfold revision_text in Hint. unfold py_int, try_some, raise.
  destruct (PyStr.contains "/" h2); rewrite Hint; reflexivity.
Qed.

Lemma _version_raises_on_non_integer_witness :
  _version [Examples.line "0, 100.0, 30.0 / revision as a float"] ","%char []
  = (inl ValueError, [])
  /\ _version [Examples.line "0, 100.0, abc"] ","%char [] = (inl ValueError, [])
  /\ _version [] ","%char [] = (inl StopIteration, []).
Proof.
  apply (_version_raises_on_non_integer
           [Examples.line "0, 100.0, 30.0 / revision as a float"] ","%char []
           ["0"; "100.0"; "30.0 / revision as a float"] [] StopIteration
           "30.0 / revision as a float" eq_refl eq_refl eq_refl).
Defined.
